(** * The embedding service of scoop (embedding-service/main.py)

    A shallow embedding of the request pipeline of the embedding service:
    the deterministic hash backend, the input validator, backend
    construction with its dimension guard, and the HTTP handler with its
    two response envelopes.

    Conventions of the embedding.
    - A Python [str] is its list of code points ([pystr]); [bytes] is a list
      of octets, each a [Z] in [0, 256).
    - A Python [float] is a real number: arithmetic on vectors is exact.
      The values parsed from JSON also carry the two infinities and NaN.
    - A Python computation returns, raises, or runs out of the fuel given to
      its [while] loop: the three constructors of [outcome].
    - The handler threads of a process and the processes themselves are a
      list of calls in progress, run one statement at a time in the order a
      schedule gives ([Threads]).
    - Functions of the Python library whose text is not part of the service
      ([int] on a string, the JSON parser, the UTF-8 decoder, the model
      loader) are fields of the records [PyLib] and [ModelHub]. *)

From Stdlib Require Import ZArith String Ascii Bool Lia.
From Stdlib Require Import Reals Lra.
From Stdlib Require Import DecimalString.
From Stdlib Require Import List.
Import ListNotations.

Set Warnings "-register-all".

Local Open Scope Z_scope.

(* ================================================================== *)
(** * Python values, exceptions and outcomes *)
(* ================================================================== *)

Module Py.

(** The exception classes the service meets.  [JSONDecodeError] and the two
    Unicode errors are subclasses of [ValueError] in Python. *)
Inductive exn_class : Type :=
| ValueError
| TypeError
| OverflowError
| RuntimeError
| IndexError
| UnicodeEncodeError
| UnicodeDecodeError
| JSONDecodeError
| OtherException (name : string).

(** An exception instance: its class and [str(exc)]. *)
Record exn : Type := mkExn { exn_cls : exn_class; exn_msg : string }.

(** [isinstance(exc, ValueError)]. *)
Definition is_ValueError (e : exn) : bool :=
  match exn_cls e with
  | ValueError | UnicodeEncodeError | UnicodeDecodeError | JSONDecodeError => true
  | _ => false
  end.

(** [isinstance(exc, json.JSONDecodeError)]. *)
Definition is_JSONDecodeError (e : exn) : bool :=
  match exn_cls e with
  | JSONDecodeError => true
  | _ => false
  end.

(** [isinstance(exc, (TypeError, ValueError))]. *)
Definition is_TypeError_or_ValueError (e : exn) : bool :=
  match exn_cls e with
  | TypeError => true
  | _ => is_ValueError e
  end.

Inductive outcome (A : Type) : Type :=
| Return (a : A)
| Raise (e : exn)
| OutOfFuel.

Arguments Return {A} a.
Arguments Raise {A} e.
Arguments OutOfFuel {A}.

Definition bind {A B : Type} (m : outcome A) (k : A -> outcome B) : outcome B :=
  match m with
  | Return a => k a
  | Raise e => Raise e
  | OutOfFuel => OutOfFuel
  end.

Definition raise {A : Type} (c : exn_class) (msg : string) : outcome A :=
  Raise (mkExn c msg).

(** A list comprehension whose element expression may raise: elements are
    evaluated left to right and the first exception ends the comprehension. *)
Fixpoint comprehension {A B : Type} (f : A -> outcome B) (l : list A)
  : outcome (list B) :=
  match l with
  | [] => Return []
  | x :: rest =>
      bind (f x) (fun y =>
      bind (comprehension f rest) (fun ys => Return (y :: ys)))
  end.

(** ** Strings *)

(** A [str]: the list of its code points. *)
Definition pystr : Type := list Z.

Fixpoint pystr_of_string (s : string) : pystr :=
  match s with
  | EmptyString => []
  | String c rest => Z.of_nat (nat_of_ascii c) :: pystr_of_string rest
  end.

Fixpoint pystr_eqb (a b : pystr) : bool :=
  match a, b with
  | [], [] => true
  | x :: a', y :: b' => (x =? y) && pystr_eqb a' b'
  | _, _ => false
  end.

(** [str(n)] for an integer [n], as a Rocq string and as a [str]. *)
Definition str_of_int (n : Z) : string := NilZero.string_of_int (Z.to_int n).

Definition pystr_of_int (n : Z) : pystr := pystr_of_string (str_of_int n).

(** [ch.isspace()]: the code points [str.strip()] removes. *)
Definition isspace (c : Z) : bool :=
  ((9 <=? c) && (c <=? 13)) || ((28 <=? c) && (c <=? 32))
  || (c =? 133) || (c =? 160) || (c =? 5760)
  || ((8192 <=? c) && (c <=? 8202))
  || (c =? 8232) || (c =? 8233) || (c =? 8239) || (c =? 8287) || (c =? 12288).

Fixpoint lstrip (s : pystr) : pystr :=
  match s with
  | [] => []
  | c :: rest => if isspace c then lstrip rest else s
  end.

Definition rstrip (s : pystr) : pystr := rev (lstrip (rev s)).

(** [s.strip()]. *)
Definition strip (s : pystr) : pystr := rstrip (lstrip s).

(** ** UTF-8 *)

(** The octets of one code point; [None] for a surrogate (U+D800..U+DFFF),
    which the strict codec refuses, and for a number that is no code point. *)
Definition utf8_of_code_point (c : Z) : option (list Z) :=
  if c <? 0 then None
  else if c <? 128 then Some [c]
  else if c <? 2048 then Some [192 + c / 64; 128 + c mod 64]
  else if (55296 <=? c) && (c <=? 57343) then None
  else if c <? 65536 then
    Some [224 + c / 4096; 128 + (c / 64) mod 64; 128 + c mod 64]
  else if c <? 1114112 then
    Some [240 + c / 262144; 128 + (c / 4096) mod 64;
          128 + (c / 64) mod 64; 128 + c mod 64]
  else None.

(** [s.encode("utf-8")]. *)
Fixpoint encode_utf8 (s : pystr) : outcome (list Z) :=
  match s with
  | [] => Return []
  | c :: rest =>
      match utf8_of_code_point c with
      | None => raise UnicodeEncodeError "'utf-8' codec can't encode character: surrogates not allowed"
      | Some bs => bind (encode_utf8 rest) (fun bs' => Return (bs ++ bs'))
      end
  end.

(** The strings the codec accepts. *)
Definition encodable_code_point (c : Z) : bool :=
  ((0 <=? c) && (c <? 55296)) || ((57343 <? c) && (c <? 1114112)).

Definition encodable (s : pystr) : bool := forallb encodable_code_point s.

(** ** Values of parsed JSON *)

(** A [float]: a real number, or one of the three special values. *)
Inductive pyfloat : Type :=
| Finite (r : R)
| Infinity (negative : bool)
| NaN.

Inductive pyval : Type :=
| PNone
| PBool (b : bool)
| PInt (n : Z)
| PFloat (x : pyfloat)
| PStr (s : pystr)
| PList (items : list pyval)
| PDict (entries : list (pystr * pyval)).

(** A [dict] with string keys, as the list of its entries; a key is looked
    up from the front. *)
Definition pydict : Type := list (pystr * pyval).

Fixpoint dict_lookup (d : pydict) (key : pystr) : option pyval :=
  match d with
  | [] => None
  | (k, v) :: rest => if pystr_eqb k key then Some v else dict_lookup rest key
  end.

(** [key in d]. *)
Definition dict_contains (d : pydict) (key : pystr) : bool :=
  match dict_lookup d key with
  | Some _ => true
  | None => false
  end.

(** [d.get(key, default)]. *)
Definition dict_get (d : pydict) (key : pystr) (default : pyval) : pyval :=
  match dict_lookup d key with
  | Some v => v
  | None => default
  end.

(** [int(x)] on a finite float: truncation towards zero. *)
Definition trunc (r : R) : Z :=
  if Rle_dec 0 r then Int_part r else (- Int_part (- r))%Z.

(** The library functions the service calls and whose text is not its own. *)
Record PyLib : Type := mkPyLib {
  (** [int(s)] for a [str]; [None] stands for its [ValueError]. *)
  int_of_str : pystr -> option Z;
  (** [raw.decode("utf-8")]. *)
  decode_utf8 : list Z -> outcome pystr;
  (** [json.loads(text)]. *)
  json_loads : pystr -> outcome pyval
}.

(** [int(x)]. *)
Definition int_ (lib : PyLib) (x : pyval) : outcome Z :=
  match x with
  | PNone => raise TypeError "int() argument must be a string, a bytes-like object or a real number, not 'NoneType'"
  | PBool b => Return (if b then 1 else 0)
  | PInt n => Return n
  | PFloat (Finite r) => Return (trunc r)
  | PFloat (Infinity _) => raise OverflowError "cannot convert float infinity to integer"
  | PFloat NaN => raise ValueError "cannot convert float NaN to integer"
  | PStr s =>
      match int_of_str lib s with
      | Some n => Return n
      | None => raise ValueError "invalid literal for int() with base 10"
      end
  | PList _ => raise TypeError "int() argument must be a string, a bytes-like object or a real number, not 'list'"
  | PDict _ => raise TypeError "int() argument must be a string, a bytes-like object or a real number, not 'dict'"
  end.

End Py.

Import Py.

Declare Scope py_scope.
Delimit Scope py_scope with py.
Notation "x <- m ;; k" := (Py.bind m (fun x => k))
  (at level 61, m at next level, right associativity) : py_scope.

(* ================================================================== *)
(** * SHA-256 (FIPS 180-4), the digest behind [hashlib.sha256] *)
(* ================================================================== *)

Module Sha256.

Definition modulus : Z := 2 ^ 32.

Definition add32 (x y : Z) : Z := (x + y) mod modulus.

Definition rotr (n x : Z) : Z :=
  Z.lor (Z.shiftr x n) ((Z.shiftl x (32 - n)) mod modulus).

Definition Ch (x y z : Z) : Z :=
  Z.lxor (Z.land x y) (Z.land (Z.lxor x (modulus - 1)) z).

Definition Maj (x y z : Z) : Z :=
  Z.lxor (Z.lxor (Z.land x y) (Z.land x z)) (Z.land y z).

Definition Sigma0 (x : Z) : Z := Z.lxor (Z.lxor (rotr 2 x) (rotr 13 x)) (rotr 22 x).
Definition Sigma1 (x : Z) : Z := Z.lxor (Z.lxor (rotr 6 x) (rotr 11 x)) (rotr 25 x).
Definition sigma0 (x : Z) : Z := Z.lxor (Z.lxor (rotr 7 x) (rotr 18 x)) (Z.shiftr x 3).
Definition sigma1 (x : Z) : Z := Z.lxor (Z.lxor (rotr 17 x) (rotr 19 x)) (Z.shiftr x 10).

(** The first [n] primes from [k] on, by trial division. *)
Definition is_prime (p : Z) : bool :=
  (1 <? p) && forallb (fun d => negb (p mod d =? 0))
                      (map Z.of_nat (seq 2 (Z.to_nat (Z.sqrt p) - 1))).

Fixpoint primes_from (fuel : nat) (k : Z) (n : nat) : list Z :=
  match fuel, n with
  | O, _ | _, O => []
  | S fuel', S n' =>
      if is_prime k then k :: primes_from fuel' (k + 1) n'
      else primes_from fuel' (k + 1) n
  end.

Definition first_primes (n : nat) : list Z := primes_from 400 2 n.

(** The integer cube root, by bisection on [lo <= root < hi]. *)
Fixpoint cbrt_between (fuel : nat) (x lo hi : Z) : Z :=
  match fuel with
  | O => lo
  | S fuel' =>
      if hi - lo <=? 1 then lo
      else let mid := (lo + hi) / 2 in
           if mid * mid * mid <=? x then cbrt_between fuel' x mid hi
           else cbrt_between fuel' x lo mid
  end.

Definition cbrt (x : Z) : Z := cbrt_between 200 x 0 (2 ^ 40).

(** The initial hash value: the first 32 bits of the fractional parts of the
    square roots of the first eight primes. *)
Definition H0 : list Z :=
  Eval vm_compute in
    map (fun p => Z.sqrt (p * 2 ^ 64) mod 2 ^ 32) (first_primes 8).

(** The round constants: the first 32 bits of the fractional parts of the
    cube roots of the first sixty-four primes. *)
Definition K : list Z :=
  Eval vm_compute in
    map (fun p => cbrt (p * 2 ^ 96) mod 2 ^ 32) (first_primes 64).

(** Padding: the bit 1, zeros up to 56 modulo 64, the bit length on 8 octets. *)
Definition be_bytes (n : nat) (x : Z) : list Z :=
  map (fun i => (x / 256 ^ Z.of_nat i) mod 256) (rev (seq 0 n)).

Definition pad (msg : list Z) : list Z :=
  let len := Z.of_nat (length msg) in
  let zeros := Z.to_nat ((55 - len) mod 64) in
  msg ++ [128] ++ repeat 0 zeros ++ be_bytes 8 (8 * len).

Definition be_word (b0 b1 b2 b3 : Z) : Z :=
  ((b0 * 256 + b1) * 256 + b2) * 256 + b3.

(** The big-endian 32-bit words of a sequence of octets. *)
Fixpoint words_of (bs : list Z) : list Z :=
  match bs with
  | b0 :: b1 :: b2 :: b3 :: rest => be_word b0 b1 b2 b3 :: words_of rest
  | _ => []
  end.

(** The message schedule, kept newest word first: [w] holds W(t-1) .. W(0). *)
Fixpoint extend_schedule (n : nat) (w : list Z) : list Z :=
  match n with
  | O => w
  | S n' =>
      let wt := add32 (add32 (sigma1 (nth 1 w 0)) (nth 6 w 0))
                      (add32 (sigma0 (nth 14 w 0)) (nth 15 w 0)) in
      extend_schedule n' (wt :: w)
  end.

Definition schedule (block : list Z) : list Z :=
  rev (extend_schedule 48 (rev block)).

Record regs : Type := mkRegs { ra : Z; rb : Z; rc : Z; rd : Z;
                               re : Z; rf : Z; rg : Z; rh : Z }.

Definition round (s : regs) (kw : Z * Z) : regs :=
  let (k, w) := kw in
  let t1 := add32 (add32 (add32 (rh s) (Sigma1 (re s)))
                         (add32 (Ch (re s) (rf s) (rg s)) k)) w in
  let t2 := add32 (Sigma0 (ra s)) (Maj (ra s) (rb s) (rc s)) in
  mkRegs (add32 t1 t2) (ra s) (rb s) (rc s) (add32 (rd s) t1) (re s) (rf s) (rg s).

Definition compress (h : regs) (block : list Z) : regs :=
  let s := fold_left round (combine K (schedule block)) h in
  mkRegs (add32 (ra h) (ra s)) (add32 (rb h) (rb s))
         (add32 (rc h) (rc s)) (add32 (rd h) (rd s))
         (add32 (re h) (re s)) (add32 (rf h) (rf s))
         (add32 (rg h) (rg s)) (add32 (rh h) (rh s)).

(** The blocks of sixteen words of the padded message, compressed in turn. *)
Fixpoint hash_blocks (n : nat) (h : regs) (ws : list Z) : regs :=
  match n with
  | O => h
  | S n' => hash_blocks n' (compress h (firstn 16 ws)) (skipn 16 ws)
  end.

Definition initial : regs :=
  mkRegs (nth 0 H0 0) (nth 1 H0 0) (nth 2 H0 0) (nth 3 H0 0)
         (nth 4 H0 0) (nth 5 H0 0) (nth 6 H0 0) (nth 7 H0 0).

(** [hashlib.sha256(msg).digest()]: thirty-two octets. *)
Definition digest (msg : list Z) : list Z :=
  let ws := words_of (pad msg) in
  let h := hash_blocks (length ws / 16) initial ws in
  be_bytes 4 (ra h) ++ be_bytes 4 (rb h) ++ be_bytes 4 (rc h) ++ be_bytes 4 (rd h)
  ++ be_bytes 4 (re h) ++ be_bytes 4 (rf h) ++ be_bytes 4 (rg h) ++ be_bytes 4 (rh h).

End Sha256.

(* ================================================================== *)
(** * Configuration *)
(* ================================================================== *)

Definition DEFAULT_MAX_LENGTH : Z := 512.
Definition DEFAULT_MAX_ITEMS : Z := 64.
Definition DEFAULT_MAX_BODY_BYTES : Z := 2000000.
Definition PIPELINE_VECTOR_DIMENSIONS : Z := 4096.

Record Settings : Type := mkSettings {
  host : string;
  port : Z;
  backend : string;
  model_name : string;
  model_key : string;
  dtype : string;
  max_length : Z;
  max_items : Z;
  max_body_bytes : Z;
  log_level : string
}.

(** [len(l)]. *)
Definition len {A : Type} (l : list A) : Z := Z.of_nat (List.length l).

(** A vector of floats as a JSON array. *)
Definition json_of_vector (v : list R) : pyval :=
  PList (map (fun x => PFloat (Finite x)) v).

Definition key (s : string) : pystr := pystr_of_string s.
Definition text_ (s : string) : pyval := PStr (pystr_of_string s).

(* ================================================================== *)
(** * The backends *)
(* ================================================================== *)

(** The [EmbeddingBackend] protocol: an object with two attributes and two
    methods. *)
Record EmbeddingBackend : Type := mkBackend {
  name : string;
  dimensions : Z;
  embed : list pystr -> Z -> outcome (list (list R));
  health : pydict
}.

Module DeterministicBackend.

(** The instance: its only attribute is the model name. *)
Record t : Type := mk { self_model_name : string }.

Definition name : string := "deterministic".
Definition dimensions : Z := PIPELINE_VECTOR_DIMENSIONS.

(** [int.from_bytes(pair, byteorder="little", signed=False)]. *)
Fixpoint from_bytes_little (bs : list Z) : Z :=
  match bs with
  | [] => 0
  | b :: rest => b + 256 * from_bytes_little rest
  end.

(** [(raw / 32767.5) - 1.0]. *)
Definition value_of_raw (raw : Z) : R := (IZR raw / 32767.5 - 1.0)%R.

(** The body of [for idx in range(0, len(digest), 2)]: [digest] is what is
    left of the digest from [idx] on; the loop ends at the end of the digest
    or at the [break]. *)
Fixpoint for_loop (digest : list Z) (values : list R) : list R :=
  match digest with
  | [] => values
  | _ :: tl =>
      let pair := firstn 2 digest in
      let pair := if len pair <? 2 then pair ++ [0] else pair in
      let raw := from_bytes_little pair in
      let value := value_of_raw raw in
      let values := values ++ [value] in
      if len values >=? dimensions then values
      else match tl with
           | [] => values
           | _ :: rest => for_loop rest values
           end
  end.

(** [while len(values) < self.dimensions], with the iterations left in
    [fuel]. *)
Fixpoint while_loop (fuel : nat) (text : pystr) (values : list R) (counter : Z)
  : outcome (list R) :=
  if len values <? dimensions then
    match fuel with
    | O => OutOfFuel
    | S fuel' =>
        bind (encode_utf8 (text ++ [10] ++ pystr_of_int counter)) (fun message =>
        let digest := Sha256.digest message in
        let values := for_loop digest values in
        while_loop fuel' text values (counter + 1))
    end
  else Return values.

(** Every iteration that does not raise appends a value, so [dimensions]
    iterations are always enough. *)
Definition loop_fuel : nat := Z.to_nat dimensions.

(** The values collected before normalisation. *)
Definition collect_values (text : pystr) : outcome (list R) :=
  while_loop loop_fuel text [] 0.

(** [sum(xs)]: the additions from the left, starting at 0. *)
Definition sum (xs : list R) : R := fold_left Rplus xs 0%R.

(** [math.sqrt(sum(value * value for value in values))]. *)
Definition euclidean_norm (values : list R) : R :=
  sqrt (sum (map (fun value => (value * value)%R) values)).

(** [values[0] = x]. *)
Definition set_first (values : list R) (x : R) : outcome (list R) :=
  match values with
  | [] => raise IndexError "list assignment index out of range"
  | _ :: rest => Return (x :: rest)
  end.

Definition normalise (values : list R) : outcome (list R) :=
  let norm := euclidean_norm values in
  if Req_EM_T norm 0 then
    bind (set_first values 1.0%R) (fun values =>
    let norm := 1.0%R in
    Return (map (fun value => (value / norm)%R) values))
  else Return (map (fun value => (value / norm)%R) values).

Definition _vector_for_text (self : t) (text : pystr) : outcome (list R) :=
  bind (collect_values text) normalise.

Definition embed (self : t) (texts : list pystr) (max_length : Z)
  : outcome (list (list R)) :=
  let _ := max_length in
  comprehension (_vector_for_text self) texts.

Definition health (self : t) : pydict :=
  [ (key "backend", text_ name);
    (key "model", text_ (self_model_name self));
    (key "device", text_ "cpu");
    (key "dimensions", PInt dimensions) ].

(** The instance seen through the protocol. *)
Definition as_backend (self : t) : EmbeddingBackend :=
  mkBackend name dimensions (embed self) (health self).

End DeterministicBackend.

(* ================================================================== *)
(** * The deterministic backend under concurrent requests *)
(* ================================================================== *)

(** [run_server] hands every request to a thread of its own
    ([ThreadingHTTPServer]); the threads of one process share the backend
    object of [ServiceState], and every process ([run_server], [run_cli])
    builds its own.  A thread runs one call of [embed], one statement of
    lines 92-124 at a time, and the scheduler may switch threads between
    any two statements. *)
Module Threads.

(** The backend object as the threads of a process share it: the attribute
    [model_name] set by [__init__] and the class attribute [dimensions]
    that [self.dimensions] reads. *)
Record object : Type := mkObject {
  model_name : string;
  dimensions : Z
}.

(** [DeterministicBackend(model_name)]. *)
Definition init (model_name : string) : object :=
  mkObject model_name PIPELINE_VECTOR_DIMENSIONS.








(** [l] with [f] applied at index [n]. *)
Fixpoint update {A : Type} (n : nat) (f : A -> A) (l : list A) : list A :=
  match l, n with
  | [], _ => []
  | x :: rest, O => f x :: rest
  | x :: rest, S n' => x :: update n' f rest
  end.










End Threads.

(** The algorithm of the deterministic backend as the specification words
    it, on the UTF-8 octets of the text. *)
Module DeterministicSpec.

(** The octets of ["{text}\n{counter}"]. *)
Definition message (text_bytes : list Z) (counter : Z) : list Z :=
  text_bytes ++ [10] ++ pystr_of_int counter.

(** Consecutive 2-byte little-endian unsigned integers; an incomplete
    trailing pair is zero-padded. *)
Fixpoint le16_pairs (digest : list Z) : list Z :=
  match digest with
  | [] => []
  | [b0] => [b0 + 256 * 0]
  | b0 :: b1 :: rest => (b0 + 256 * b1) :: le16_pairs rest
  end.

Definition digest_values (text_bytes : list Z) (counter : Z) : list R :=
  map (fun raw => (IZR raw / 32767.5 - 1)%R)
      (le16_pairs (Sha256.digest (message text_bytes counter))).

(** The values of [n] digests, for the counters from [counter] on. *)
Fixpoint stream (n : nat) (text_bytes : list Z) (counter : Z) : list R :=
  match n with
  | O => []
  | S n' => digest_values text_bytes counter ++ stream n' text_bytes (counter + 1)
  end.

(** 4096 values are 256 digests of 16 values; the final digest's
    contribution is cut to the slots left. *)
Definition collected (text_bytes : list Z) : list R :=
  firstn 4096 (stream 256 text_bytes 0).

Definition norm (v : list R) : R :=
  sqrt (fold_right (fun x acc => (x * x + acc)%R) 0%R v).

Definition vector (text_bytes : list Z) : list R :=
  let v := collected text_bytes in
  map (fun x => (x / norm v)%R) v.

(** The UTF-8 octets of a text the codec accepts. *)
Definition utf8 (text : pystr) : list Z :=
  flat_map (fun c => match utf8_of_code_point c with
                     | Some bs => bs
                     | None => []
                     end) text.

End DeterministicSpec.

(** What loading a model yields, and the loader. *)
Record LoadedModel : Type := mkLoaded {
  hidden_size : Z;
  device : string;
  (** tokenizer, forward pass, last-token pooling and normalisation *)
  infer : list pystr -> Z -> outcome (list (list R))
}.

Record ModelHub : Type := mkHub {
  (** [_load_model]: [from_pretrained] for a model name and a dtype *)
  load_model : string -> string -> outcome LoadedModel
}.

Module TransformersBackend.

Record t : Type := mk {
  self_model_name : string;
  self_dtype : string;
  self_model : LoadedModel;
  self_dimensions : Z
}.

Definition name : string := "transformers".

(** [__init__]: the model is loaded and its width recorded. *)
Definition init (hub : ModelHub) (model_name dtype : string) : outcome t :=
  bind (load_model hub model_name dtype) (fun m =>
  let dimensions :=
    if hidden_size m >? 0 then hidden_size m else PIPELINE_VECTOR_DIMENSIONS in
  Return (mk model_name dtype m dimensions)).

(** [embed]: [init] has set the model, so the not-initialised error of the
    source cannot occur; the batch goes to the model under the lock. *)
Definition embed (self : t) (texts : list pystr) (max_length : Z)
  : outcome (list (list R)) :=
  if len texts =? 0 then Return []
  else infer (self_model self) texts max_length.

Definition health (self : t) : pydict :=
  [ (key "backend", text_ name);
    (key "model", text_ (self_model_name self));
    (key "device", text_ (device (self_model self)));
    (key "dimensions", PInt (self_dimensions self)) ].

Definition as_backend (self : t) : EmbeddingBackend :=
  mkBackend name (self_dimensions self) (embed self) (health self).

End TransformersBackend.

(* ================================================================== *)
(** * The input validator *)
(* ================================================================== *)

Definition is_None (v : pyval) : bool :=
  match v with
  | PNone => true
  | _ => false
  end.

(** The first lines of [parse_input_texts]: the value under "texts", or the
    one under "input" when the former is [None] and the key is there. *)
Definition text_payload (data : pydict) : pyval :=
  let payload := dict_get data (key "texts") PNone in
  if is_None payload && dict_contains data (key "input")
  then dict_get data (key "input") PNone
  else payload.

(** [for index, item in enumerate(texts)]. *)
Fixpoint clean_loop (items : list pyval) (index : Z) (cleaned : list pystr)
  : outcome (list pystr) :=
  match items with
  | [] => Return cleaned
  | item :: rest =>
      match item with
      | PStr s =>
          let text := strip s in
          if negb (pystr_eqb text [])
          then clean_loop rest (index + 1) (cleaned ++ [text])
          else clean_loop rest (index + 1) cleaned
      | _ => raise ValueError
               ("text at index " ++ str_of_int index ++ " must be a string")
      end
  end.

Definition parse_input_texts (data : pydict) (max_items : Z)
  : outcome (list pystr) :=
  let payload := text_payload data in
  if is_None payload then raise ValueError "missing 'texts' or 'input' field"
  else
    bind (match payload with
          | PStr _ => Return [payload]
          | PList items => Return items
          | _ => raise ValueError
                   "'texts'/'input' must be a string or array of strings"
          end) (fun texts =>
    bind (clean_loop texts 0 []) (fun cleaned =>
    if len cleaned =? 0 then
      raise ValueError "request contains no non-empty texts"
    else if len cleaned >? max_items then
      raise ValueError ("too many texts: got " ++ str_of_int (len cleaned)
                        ++ ", max " ++ str_of_int max_items)
    else Return cleaned)).

Definition parse_max_length (lib : PyLib) (data : pydict) (default_value : Z)
  : outcome Z :=
  let raw := dict_get data (key "max_length") (PInt default_value) in
  match int_ lib raw with
  | Raise e =>
      if is_TypeError_or_ValueError e then Return default_value else Raise e
  | OutOfFuel => OutOfFuel
  | Return value =>
      if value <? 8 then Return 8
      else if value >? 4096 then Return 4096
      else Return value
  end.

(* ================================================================== *)
(** * Backend construction and start-up *)
(* ================================================================== *)

Record ServiceState : Type := mkState {
  settings : Settings;
  state_backend : EmbeddingBackend;
  started_at : R
}.

(** The [if]/[elif]/[else] of [create_backend]: the backend the settings
    name. *)
Definition construct_backend (hub : ModelHub) (settings : Settings)
  : outcome EmbeddingBackend :=
  if String.eqb (backend settings) "deterministic" then
    Return (DeterministicBackend.as_backend
              (DeterministicBackend.mk (model_name settings)))
  else if String.eqb (backend settings) "transformers" then
    bind (TransformersBackend.init hub (model_name settings) (dtype settings))
         (fun b => Return (TransformersBackend.as_backend b))
  else raise ValueError ("unsupported backend: " ++ backend settings).

Definition create_backend (hub : ModelHub) (settings : Settings)
  : outcome EmbeddingBackend :=
  bind (construct_backend hub settings) (fun backend =>
  if negb (dimensions backend =? PIPELINE_VECTOR_DIMENSIONS) then
    raise RuntimeError
      ("backend dimension mismatch: got " ++ str_of_int (dimensions backend)
       ++ ", expected " ++ str_of_int PIPELINE_VECTOR_DIMENSIONS
       ++ " for news-pipeline pgvector schema")
  else Return backend).

(** The server once its listener exists. *)
Record Listening : Type := mkListening {
  bound_host : string;
  bound_port : Z;
  served : ServiceState
}.

(** [run_server] up to the creation of the listener ([now] is the reading of
    [time.time()]); what follows serves requests from [served]. *)
Definition run_server (hub : ModelHub) (settings : Settings) (now : R)
  : outcome Listening :=
  bind (create_backend hub settings) (fun backend =>
  let state := mkState settings backend now in
  Return (mkListening (host settings) (port settings) state)).

(* ================================================================== *)
(** * The HTTP handler *)
(* ================================================================== *)

Module HTTPStatus.
Definition OK : Z := 200.
Definition BAD_REQUEST : Z := 400.
Definition NOT_FOUND : Z := 404.
Definition INTERNAL_SERVER_ERROR : Z := 500.
Definition NOT_IMPLEMENTED : Z := 501.
End HTTPStatus.

Record Request : Type := mkRequest {
  command : string;
  path : string;
  (** the Content-Length header, when the request has one *)
  content_length_header : option pystr;
  (** the octets the connection still holds *)
  rfile : list Z
}.

(** What the handler writes: a JSON document ([_write_json]) or the error
    page of the HTTP library ([send_error]). *)
Inductive Body : Type :=
| JsonBody (payload : pyval)
| ErrorPage (message : string).

Record Response : Type := mkResponse {
  status : Z;
  body : Body
}.

(** The clock readings a request sees: the rounded milliseconds around the
    backend call and the rounded seconds since start-up. *)
Record Clock : Type := mkClock {
  elapsed_ms : R;
  uptime_seconds : R
}.

Definition _write_json (status : Z) (payload : pyval) : Response :=
  mkResponse status (JsonBody payload).

Definition _write_error (status : Z) (message : string) : Response :=
  _write_json status (PDict [(key "error", text_ message)]).

(** [d[k] = v]. *)
Fixpoint dict_set (d : pydict) (k : pystr) (v : pyval) : pydict :=
  match d with
  | [] => [(k, v)]
  | (k', v') :: rest =>
      if pystr_eqb k' k then (k', v) :: rest else (k', v') :: dict_set rest k v
  end.

(** [{**d, **extra}]. *)
Definition dict_merge (d extra : pydict) : pydict :=
  fold_left (fun acc kv => dict_set acc (fst kv) (snd kv)) extra d.

(** [enumerate(l)], from [start]. *)
Fixpoint enumerate {A : Type} (start : Z) (l : list A) : list (Z * A) :=
  match l with
  | [] => []
  | x :: rest => (start, x) :: enumerate (start + 1) rest
  end.

Section Handler.

Variable lib : PyLib.
Variable state : ServiceState.

Definition _health_payload (clock : Clock) : pyval :=
  PDict (dict_merge
           [ (key "status", text_ "ok");
             (key "uptime_seconds", PFloat (Finite (uptime_seconds clock)));
             (key "pipeline_dimensions", PInt PIPELINE_VECTOR_DIMENSIONS) ]
           (health (state_backend state))).

Definition _read_json (req : Request) : outcome pydict :=
  let raw_length :=
    strip (match content_length_header req with
           | Some v => v
           | None => key "0"
           end) in
  bind (match int_of_str lib raw_length with
        | Some n => Return n
        | None => raise ValueError "invalid Content-Length header"
        end) (fun content_length =>
  if content_length <=? 0 then raise ValueError "empty request body"
  else if content_length >? max_body_bytes (settings state) then
    raise ValueError
      ("request body too large: " ++ str_of_int content_length ++ " bytes (max "
       ++ str_of_int (max_body_bytes (settings state)) ++ ")")
  else
    let raw_body := firstn (Z.to_nat content_length) (rfile req) in
    bind (decode_utf8 lib raw_body) (fun text =>
    bind (json_loads lib text) (fun decoded =>
    match decoded with
    | PDict d => Return d
    | _ => raise ValueError "request body must be a JSON object"
    end))).

Definition do_GET (req : Request) (clock : Clock) : outcome Response :=
  if negb (String.eqb (path req) "/health") then
    Return (_write_error HTTPStatus.NOT_FOUND "not found")
  else Return (_write_json HTTPStatus.OK (_health_payload clock)).

(** The envelope of [/v1/embeddings]. *)
Definition openai_payload (vectors : list (list R)) : pyval :=
  PDict
    [ (key "object", text_ "list");
      (key "data",
       PList (map (fun iv =>
                     PDict [ (key "object", text_ "embedding");
                             (key "index", PInt (fst iv));
                             (key "embedding", json_of_vector (snd iv)) ])
                  (enumerate 0 vectors)));
      (key "model", text_ (model_name (settings state)));
      (key "usage", PDict [ (key "prompt_tokens", PInt 0);
                            (key "total_tokens", PInt 0) ]) ].

(** The envelope of [/embed]. *)
Definition native_payload (vectors : list (list R)) (clock : Clock) : pyval :=
  PDict
    [ (key "embeddings", PList (map json_of_vector vectors));
      (key "model", text_ (model_name (settings state)));
      (key "dimensions", PInt (dimensions (state_backend state)));
      (key "count", PInt (len vectors));
      (key "elapsed_ms", PFloat (Finite (elapsed_ms clock))) ].

(** The first [try] of [do_POST]: body, texts and truncation length. *)
Definition validate (req : Request) : outcome (list pystr * Z) :=
  bind (_read_json req) (fun body =>
  bind (parse_input_texts body (max_items (settings state))) (fun texts =>
  bind (parse_max_length lib body (max_length (settings state))) (fun max_length =>
  Return (texts, max_length)))).

(** The checks on what the backend returned, and the rendering. *)
Definition respond (req : Request) (clock : Clock) (texts : list pystr)
    (vectors : list (list R)) : Response :=
  if negb (len vectors =? len texts) then
    _write_error HTTPStatus.INTERNAL_SERVER_ERROR
      ("backend returned " ++ str_of_int (len vectors) ++ " embeddings for "
       ++ str_of_int (len texts) ++ " texts")
  else if (len vectors >? 0)
          && negb (len (hd [] vectors) =? dimensions (state_backend state)) then
    _write_error HTTPStatus.INTERNAL_SERVER_ERROR
      ("dimension mismatch: got " ++ str_of_int (len (hd [] vectors))
       ++ ", expected " ++ str_of_int (dimensions (state_backend state)))
  else
    let payload :=
      if String.eqb (path req) "/v1/embeddings" then openai_payload vectors
      else native_payload vectors clock in
    _write_json HTTPStatus.OK payload.

Definition do_POST (req : Request) (clock : Clock) : outcome Response :=
  if negb (String.eqb (path req) "/embed" || String.eqb (path req) "/v1/embeddings")
  then Return (_write_error HTTPStatus.NOT_FOUND "not found")
  else
    match validate req with
    | Raise exc =>
        if is_ValueError exc then
          Return (_write_error HTTPStatus.BAD_REQUEST (exn_msg exc))
        else if is_JSONDecodeError exc then
          Return (_write_error HTTPStatus.BAD_REQUEST "invalid JSON body")
        else Raise exc
    | OutOfFuel => OutOfFuel
    | Return (texts, max_length) =>
        match embed (state_backend state) texts max_length with
        | Raise exc =>
            Return (_write_error HTTPStatus.INTERNAL_SERVER_ERROR
                                 ("inference failed: " ++ exn_msg exc))
        | OutOfFuel => OutOfFuel
        | Return vectors => Return (respond req clock texts vectors)
        end
    end.

(** The methods the handler class defines, by HTTP verb: [do_GET] and
    [do_POST], and no other. *)
Definition handler_method (verb : string)
  : option (Request -> Clock -> outcome Response) :=
  if String.eqb verb "GET" then Some do_GET
  else if String.eqb verb "POST" then Some do_POST
  else None.

(** The dispatch of the base class ([BaseHTTPRequestHandler]): the method
    [do_<verb>] when the class has one, its error page with status 501
    otherwise. *)
Definition handle_one_request (req : Request) (clock : Clock)
  : outcome Response :=
  match handler_method (command req) with
  | Some method => method req clock
  | None =>
      Return (mkResponse HTTPStatus.NOT_IMPLEMENTED
                (ErrorPage ("Unsupported method ('" ++ command req ++ "')")))
  end.

End Handler.

(** The vectors in each envelope, as the JSON arrays they are sent as. *)
Definition native_vectors (r : Response) : option (list pyval) :=
  match body r with
  | JsonBody (PDict d) =>
      match dict_lookup d (key "embeddings") with
      | Some (PList vs) => Some vs
      | _ => None
      end
  | _ => None
  end.

Definition openai_vectors (r : Response) : option (list pyval) :=
  match body r with
  | JsonBody (PDict d) =>
      match dict_lookup d (key "data") with
      | Some (PList items) =>
          Some (map (fun item =>
                       match item with
                       | PDict e => dict_get e (key "embedding") PNone
                       | _ => PNone
                       end) items)
      | _ => None
      end
  | _ => None
  end.

(* ================================================================== *)
(** * Sample surroundings for closed statements *)
(* ================================================================== *)

Module Samples.

(** [int] on a string of ASCII decimal digits. *)
Fixpoint digits_value (acc : Z) (s : pystr) : option Z :=
  match s with
  | [] => Some acc
  | c :: rest =>
      if (48 <=? c) && (c <=? 57) then digits_value (10 * acc + (c - 48)) rest
      else None
  end.

Definition int_of_digits (s : pystr) : option Z :=
  match s with
  | [] => None
  | _ => digits_value 0 s
  end.

(** A library whose JSON parser answers [doc] whatever the text. *)
Definition lib_parsing_to (doc : pyval) : PyLib :=
  mkPyLib int_of_digits (fun octets => Return octets) (fun _ => Return doc).

(** A hub whose model has the given width and answers every batch with
    [answer]. *)
Definition hub_of (width : Z) (answer : list (list R)) : ModelHub :=
  mkHub (fun _ _ => Return (mkLoaded width "cpu" (fun _ _ => Return answer))).

Definition settings_for (backend_name : string) : Settings :=
  mkSettings "0.0.0.0" 8844 backend_name "Qwen/Qwen3-Embedding-8B"
             "Qwen3-Embedding-8B" "float16" DEFAULT_MAX_LENGTH DEFAULT_MAX_ITEMS
             DEFAULT_MAX_BODY_BYTES "INFO".

Definition hello_world : pystr := pystr_of_string "hello world".

End Samples.

(* ================================================================== *)
(** * Environment, command-line settings and the CLI mode *)
(* ================================================================== *)

(** [os.getenv(name, "")], with the environment as a function. *)
Definition getenv (environ : pystr -> option pystr) (name : pystr) : pystr :=
  match environ name with
  | Some value => value
  | None => []
  end.

Definition _env (environ : pystr -> option pystr) (name fallback : pystr)
  : pystr :=
  let value := strip (getenv environ name) in
  if pystr_eqb value [] then fallback else value.

Definition _env_int (lib : PyLib) (environ : pystr -> option pystr)
    (name : pystr) (fallback : Z) : Z :=
  let raw := strip (getenv environ name) in
  if pystr_eqb raw [] then fallback
  else match int_of_str lib raw with
       | Some n => n
       | None => fallback
       end.

(** The namespace [parse_args] returns to [main]. *)
Record Args : Type := mkArgs {
  args_host : string;
  args_port : Z;
  args_backend : string;
  args_model_name : string;
  args_model_key : string;
  args_dtype : string;
  args_max_length : Z;
  args_max_items : Z;
  args_max_body_bytes : Z;
  args_log_level : string
}.

(** The [Settings(...)] expression of [main]; [upper] is [str.upper]. *)
Definition main_settings (upper : string -> string) (args : Args) : Settings :=
  mkSettings (args_host args) (args_port args) (args_backend args)
             (args_model_name args) (args_model_key args) (args_dtype args)
             (Z.max 8 (args_max_length args))
             (Z.max 1 (args_max_items args))
             (Z.max 1024 (args_max_body_bytes args))
             (upper (args_log_level args)).

(** The line boundaries of [str.splitlines]. *)
Definition is_linebreak (c : Z) : bool :=
  ((10 <=? c) && (c <=? 13)) || ((28 <=? c) && (c <=? 30))
  || (c =? 133) || (c =? 8232) || (c =? 8233).

(** [s.splitlines()]: [line] is the line being read; a carriage return
    followed by a line feed is one boundary; no empty line is added after a
    final boundary. *)
Fixpoint splitlines_from (s : pystr) (line : pystr) : list pystr :=
  match s with
  | [] => if pystr_eqb line [] then [] else [line]
  | c :: rest =>
      if is_linebreak c then
        match rest with
        | c2 :: rest2 =>
            if (c =? 13) && (c2 =? 10) then line :: splitlines_from rest2 []
            else line :: splitlines_from rest []
        | [] => [line]
        end
      else splitlines_from rest (line ++ [c])
  end.

Definition splitlines (s : pystr) : list pystr := splitlines_from s [].

(** What [run_cli] hands to the validator: the parsed document as a dict,
    or nothing when it is neither a string, a list nor a dict. *)
Definition cli_document (parsed : pyval) : option pydict :=
  match parsed with
  | PStr _ => Some [(key "texts", PList [parsed])]
  | PList _ => Some [(key "texts", parsed)]
  | PDict d => Some d
  | _ => None
  end.

(** [run_cli]: the JSON document printed on standard output and the exit
    code ([print("[]")] prints the empty list). *)
Definition run_cli (lib : PyLib) (hub : ModelHub) (settings : Settings)
    (stdin : pystr) : outcome (pyval * Z) :=
  let raw := strip stdin in
  if pystr_eqb raw [] then Return (PList [], 0)
  else
    bind (match json_loads lib raw with
          | Raise exc =>
              if is_JSONDecodeError exc then
                Return (PDict [(key "texts",
                                PList (map PStr
                                         (filter (fun line => negb (pystr_eqb line []))
                                                 (map strip (splitlines raw)))))])
              else Raise exc
          | other => other
          end) (fun parsed =>
    match cli_document parsed with
    | None => Return (PList [], 0)
    | Some parsed =>
        bind (parse_input_texts parsed (max_items settings)) (fun texts =>
        bind (parse_max_length lib parsed (max_length settings)) (fun max_length =>
        bind (create_backend hub settings) (fun backend =>
        bind (embed backend texts max_length) (fun vectors =>
        Return (PList (map json_of_vector vectors), 0)))))
    end).

(** The [try] of [main] around [run_cli]: an exception is logged and the
    exit code is 1. *)
Definition main_cli (lib : PyLib) (hub : ModelHub) (settings : Settings)
    (stdin : pystr) : outcome Z :=
  match run_cli lib hub settings stdin with
  | Return (_, code) => Return code
  | Raise _ => Return 1
  | OutOfFuel => OutOfFuel
  end.

(** The header value [_read_json] converts: the Content-Length header, or
    "0" without one, trimmed. *)
Definition declared_length (req : Request) : pystr :=
  strip (match content_length_header req with
         | Some v => v
         | None => key "0"
         end).

(** A string without leading or trailing whitespace. *)
Definition trimmed (s : pystr) : Prop := lstrip s = s /\ lstrip (rev s) = rev s.

(** The statuses the handler writes itself. *)
Definition handler_status (code : Z) : Prop :=
  code = HTTPStatus.OK \/ code = HTTPStatus.BAD_REQUEST
  \/ code = HTTPStatus.NOT_FOUND \/ code = HTTPStatus.INTERNAL_SERVER_ERROR.

(** A value of parsed JSON that is a string. *)
Definition is_str (v : pyval) : bool :=
  match v with
  | PStr _ => true
  | _ => false
  end.

(* ================================================================== *)
(** * Predicates and samples of the statements *)
(* ================================================================== *)

(** A code point of one octet in UTF-8. *)
Definition is_ascii (c : Z) : Prop := 0 <= c < 128.

(** The range of an octet, and of two octets read as one integer. *)
Definition is_octet (b : Z) : Prop := 0 <= b < 256.

Definition is_raw (raw : Z) : Prop := 0 <= raw <= 65535.

(** [PIPELINE_VECTOR_DIMENSIONS] as a list length. *)
Definition dims : nat := 4096.

(** The sum of the squares of the components. *)
Definition sumsq (v : list R) : R := fold_right (fun x acc => (x * x + acc)%R) 0%R v.

(** A value of the vector: the image of a 16-bit integer. *)
Definition is_value (x : R) : Prop :=
  exists raw : Z, (0 <= raw <= 65535)%Z /\ x = (IZR raw / 32767.5 - 1)%R.




(** The strings that survive trimming, in input order. *)
Definition surviving (items : list pystr) : list pystr :=
  filter (fun text => negb (pystr_eqb text [])) (map strip items).

(** [result] is [v] brought into the range from 8 to 4096. *)
Definition clamped (v result : Z) : Prop :=
  (v < 8 -> result = 8)
  /\ (v > 4096 -> result = 4096)
  /\ (8 <= v <= 4096 -> result = v).

(** The computation ends in an exception. *)
Definition raises {A : Type} (m : outcome A) : Prop := exists e, m = Raise e.

(** The same request sent to another path. *)
Definition with_path (req : Request) (p : string) : Request :=
  mkRequest (command req) p (content_length_header req) (rfile req).

(** A state as start-up builds it for the deterministic backend, and a
    state around a model that answers every batch with [answer]. *)
Definition deterministic_state : ServiceState :=
  mkState (Samples.settings_for "deterministic")
          (DeterministicBackend.as_backend (DeterministicBackend.mk "m")) 0%R.

Definition model_state (width : Z) (answer : list (list R)) : ServiceState :=
  mkState (Samples.settings_for "transformers")
          (TransformersBackend.as_backend
             (TransformersBackend.mk "m" "float16"
                (mkLoaded width "cpu" (fun _ _ => Return answer)) width))
          0%R.

(** A request whose body the sample library parses to the document given
    to [Samples.lib_parsing_to]. *)
Definition post_to (p : string) : Request :=
  mkRequest "POST" p (Some (pystr_of_string "17")) (repeat 32 17).

(** The document [{"texts": ["a"]}]. *)
Definition one_text : pyval :=
  PDict [(key "texts", PList [PStr (pystr_of_string "a")])].

(** The answer 404 with the body [{"error": "not found"}]. *)
Definition not_found : Response :=
  mkResponse 404 (JsonBody (PDict [(key "error", PStr (pystr_of_string "not found"))])).

(* ================================================================== *)
(** * Facts about strings and UTF-8 *)
(* ================================================================== *)

Lemma pystr_eqb_eq (a b : pystr) : pystr_eqb a b = true <-> a = b.
Proof.
  revert b; induction a as [|x a IH]; intros [|y b]; simpl.
  - split; reflexivity.
  - split; discriminate.
  - split; discriminate.
  - rewrite andb_true_iff, Z.eqb_eq, IH. split.
    + intros [-> ->]; reflexivity.
    + intros H; injection H; auto.
Qed.

Lemma pystr_eqb_refl (a : pystr) : pystr_eqb a a = true.
Proof. apply pystr_eqb_eq; reflexivity. Qed.

Lemma encode_utf8_app (a b : pystr) :
  encode_utf8 (a ++ b) =
  bind (encode_utf8 a) (fun x => bind (encode_utf8 b) (fun y => Return (x ++ y))).
Proof.
  induction a as [|c a IH]; simpl.
  - destruct (encode_utf8 b); reflexivity.
  - destruct (utf8_of_code_point c) as [bs|]; [|reflexivity].
    rewrite IH. destruct (encode_utf8 a); simpl; [|reflexivity|reflexivity].
    destruct (encode_utf8 b); simpl; [|reflexivity|reflexivity].
    rewrite app_assoc; reflexivity.
Qed.

Lemma encode_utf8_ascii (s : pystr) :
  Forall is_ascii s -> encode_utf8 s = Return s.
Proof.
  induction 1 as [|c s Hc _ IH]; simpl; [reflexivity|].
  unfold utf8_of_code_point, is_ascii in *.
  destruct (Z.ltb_spec c 0); [lia|].
  destruct (Z.ltb_spec c 128); [|lia].
  rewrite IH; reflexivity.
Qed.

Lemma encodable_code_point_some (c : Z) :
  encodable_code_point c = true -> exists bs, utf8_of_code_point c = Some bs.
Proof.
  unfold encodable_code_point, utf8_of_code_point. intros H.
  destruct (Z.ltb_spec c 0); [lia|].
  destruct (Z.ltb_spec c 128); [eauto|].
  destruct (Z.ltb_spec c 2048); [eauto|].
  destruct (Z.leb_spec 55296 c); destruct (Z.leb_spec c 57343); simpl;
    try lia;
    (destruct (Z.ltb_spec c 65536); [eauto|]);
    (destruct (Z.ltb_spec c 1114112); [eauto|lia]).
Qed.

Lemma encodable_code_point_none (c : Z) :
  encodable_code_point c = false -> utf8_of_code_point c = None.
Proof.
  unfold encodable_code_point, utf8_of_code_point. intros H.
  destruct (Z.ltb_spec c 0); [reflexivity|].
  destruct (Z.ltb_spec c 128); [lia|].
  destruct (Z.ltb_spec c 2048); [lia|].
  destruct (Z.leb_spec 55296 c); destruct (Z.leb_spec c 57343); simpl;
    try reflexivity;
    (destruct (Z.ltb_spec c 65536); [lia|]);
    (destruct (Z.ltb_spec c 1114112); [lia|reflexivity]).
Qed.

Lemma encode_utf8_encodable (s : pystr) :
  encodable s = true -> encode_utf8 s = Return (DeterministicSpec.utf8 s).
Proof.
  induction s as [|c s IH]; simpl; [reflexivity|].
  rewrite andb_true_iff. intros [Hc Hs].
  destruct (encodable_code_point_some c Hc) as [bs ->].
  rewrite (IH Hs). reflexivity.
Qed.

Lemma encode_utf8_not_encodable (s : pystr) :
  encodable s = false ->
  exists msg, encode_utf8 s = Raise (mkExn UnicodeEncodeError msg).
Proof.
  induction s as [|c s IH]; simpl; [discriminate|].
  rewrite andb_false_iff. intros H.
  destruct (encodable_code_point c) eqn:Hc.
  - destruct (encodable_code_point_some c Hc) as [bs ->].
    destruct H as [H|H]; [discriminate|].
    destruct (IH H) as [msg ->]. eexists; reflexivity.
  - rewrite (encodable_code_point_none c Hc). eexists; reflexivity.
Qed.

Lemma string_of_uint_ascii (d : Decimal.uint) :
  Forall is_ascii (pystr_of_string (NilEmpty.string_of_uint d)).
Proof.
  induction d; simpl; constructor; auto; unfold is_ascii; simpl; lia.
Qed.

Lemma pystr_of_int_ascii (n : Z) : Forall is_ascii (pystr_of_int n).
Proof.
  unfold pystr_of_int, str_of_int, NilZero.string_of_int.
  assert (H : forall d, Forall is_ascii (pystr_of_string (NilZero.string_of_uint d))).
  { intros d. unfold NilZero.string_of_uint.
    destruct d; try apply string_of_uint_ascii.
    simpl. constructor; [unfold is_ascii; simpl; lia | constructor]. }
  destruct (Z.to_int n); [apply H|].
  simpl. constructor; [unfold is_ascii; simpl; lia | apply H].
Qed.

(** The octets hashed at each turn of the loop. *)
Lemma encode_message (text : pystr) (counter : Z) :
  encodable text = true ->
  encode_utf8 (text ++ [10] ++ pystr_of_int counter)
  = Return (DeterministicSpec.message (DeterministicSpec.utf8 text) counter).
Proof.
  intros H.
  rewrite encode_utf8_app, (encode_utf8_encodable _ H),
    (encode_utf8_ascii ([10] ++ pystr_of_int counter)); [reflexivity|].
  constructor; [unfold is_ascii; lia | apply pystr_of_int_ascii].
Qed.

Lemma encode_message_fails (text : pystr) (counter : Z) :
  encodable text = false ->
  exists msg, encode_utf8 (text ++ [10] ++ pystr_of_int counter)
              = Raise (mkExn UnicodeEncodeError msg).
Proof.
  intros H. rewrite encode_utf8_app.
  destruct (encode_utf8_not_encodable _ H) as [msg ->]. eexists; reflexivity.
Qed.

(* ================================================================== *)
(** * Facts about the digest and the two loops *)
(* ================================================================== *)

Lemma be_bytes_length (n : nat) (x : Z) : List.length (Sha256.be_bytes n x) = n.
Proof. unfold Sha256.be_bytes. rewrite length_map, length_rev, length_seq. reflexivity. Qed.

Lemma be_bytes_octets (n : nat) (x : Z) : Forall is_octet (Sha256.be_bytes n x).
Proof.
  unfold Sha256.be_bytes. apply Forall_map, Forall_forall. intros i _.
  unfold is_octet. apply Z.mod_pos_bound. lia.
Qed.

Lemma digest_length (msg : list Z) : List.length (Sha256.digest msg) = 32%nat.
Proof. unfold Sha256.digest. cbv zeta. rewrite !length_app, !be_bytes_length. reflexivity. Qed.

Lemma digest_octets (msg : list Z) : Forall is_octet (Sha256.digest msg).
Proof.
  unfold Sha256.digest. cbv zeta.
  repeat (apply Forall_app; split); apply be_bytes_octets.
Qed.

(** Induction two octets at a time. *)
Lemma pairs_ind (P : list Z -> Prop) :
  P [] -> (forall b, P [b]) ->
  (forall b0 b1 rest, P rest -> P (b0 :: b1 :: rest)) ->
  forall l, P l.
Proof.
  intros H0 H1 H2.
  assert (H : forall l, P l /\ forall b, P (b :: l)).
  { induction l as [|b l [IH1 IH2]]; split; auto. }
  intros l. apply H.
Qed.

Lemma le16_pairs_length (bs : list Z) :
  List.length (DeterministicSpec.le16_pairs bs) = Nat.div2 (S (List.length bs)).
Proof.
  induction bs as [| b | b0 b1 rest IH] using pairs_ind; try reflexivity.
  cbn [DeterministicSpec.le16_pairs List.length]. rewrite IH. reflexivity.
Qed.

Lemma le16_pairs_raw (bs : list Z) :
  Forall is_octet bs -> Forall is_raw (DeterministicSpec.le16_pairs bs).
Proof.
  induction bs as [| b | b0 b1 rest IH] using pairs_ind; intros H.
  - constructor.
  - inversion H; subst. constructor; [unfold is_raw, is_octet in *; lia | constructor].
  - inversion H as [|? ? Hb0 H']; subst. inversion H' as [|? ? Hb1 H'']; subst.
    cbn [DeterministicSpec.le16_pairs]. constructor; [|auto].
    unfold is_raw, is_octet in *; lia.
Qed.

Lemma value_of_raw_eq (raw : Z) :
  DeterministicBackend.value_of_raw raw = (IZR raw / 32767.5 - 1)%R.
Proof. unfold DeterministicBackend.value_of_raw. lra. Qed.

Lemma len_lt_dims {A : Type} (l : list A) :
  (len l <? DeterministicBackend.dimensions) = (List.length l <? dims)%nat.
Proof.
  unfold len, DeterministicBackend.dimensions, PIPELINE_VECTOR_DIMENSIONS, dims.
  destruct (Z.ltb_spec (Z.of_nat (List.length l)) 4096);
    destruct (Nat.ltb_spec (List.length l) 4096); try reflexivity; lia.
Qed.

Lemma len_ge_dims {A : Type} (l : list A) :
  (len l >=? DeterministicBackend.dimensions) = (dims <=? List.length l)%nat.
Proof.
  unfold len, DeterministicBackend.dimensions, PIPELINE_VECTOR_DIMENSIONS, dims.
  rewrite Z.geb_leb.
  destruct (Z.leb_spec 4096 (Z.of_nat (List.length l)));
    destruct (Nat.leb_spec 4096 (List.length l)); try reflexivity; lia.
Qed.

Opaque dims.

(** The inner loop appends the values of the digest, cut to the free slots. *)
Lemma for_loop_spec (digest : list Z) :
  forall values, (List.length values < dims)%nat ->
  DeterministicBackend.for_loop digest values
  = values ++ firstn (dims - List.length values)
                     (map DeterministicBackend.value_of_raw
                          (DeterministicSpec.le16_pairs digest)).
Proof.
  induction digest as [| b | b0 b1 rest IH] using pairs_ind; intros values Hlt.
  - simpl. rewrite firstn_nil, app_nil_r. reflexivity.
  - cbn [DeterministicBackend.for_loop firstn DeterministicSpec.le16_pairs map].
    change (len [b] <? 2) with true. cbv iota.
    rewrite len_ge_dims.
    destruct (dims - List.length values)%nat as [|k] eqn:Hk; [lia|].
    cbn [firstn]. rewrite firstn_nil.
    replace (DeterministicBackend.from_bytes_little ([b] ++ [0])) with (b + 256 * 0)
      by (cbn [DeterministicBackend.from_bytes_little app]; lia).
    destruct (dims <=? _)%nat; reflexivity.
  - cbn [DeterministicBackend.for_loop firstn DeterministicSpec.le16_pairs map].
    change (len [b0; b1] <? 2) with false. cbv iota.
    rewrite len_ge_dims.
    replace (DeterministicBackend.from_bytes_little [b0; b1]) with (b0 + 256 * b1)
      by (cbn [DeterministicBackend.from_bytes_little]; lia).
    set (v := DeterministicBackend.value_of_raw (b0 + 256 * b1)).
    destruct (dims - List.length values)%nat as [|k] eqn:Hk; [lia|].
    cbn [firstn].
    destruct (Nat.leb_spec dims (List.length (values ++ [v]))) as [Hge|Hlt'].
    + rewrite length_app in Hge. cbn [List.length] in Hge.
      replace k with 0%nat by lia. reflexivity.
    + rewrite IH by exact Hlt'. rewrite <- app_assoc.
      cbn [app]. rewrite length_app. cbn [List.length].
      replace (dims - (List.length values + 1))%nat with k by lia. reflexivity.
Qed.

Lemma digest_values_eq (text_bytes : list Z) (counter : Z) :
  map DeterministicBackend.value_of_raw
      (DeterministicSpec.le16_pairs
         (Sha256.digest (DeterministicSpec.message text_bytes counter)))
  = DeterministicSpec.digest_values text_bytes counter.
Proof. unfold DeterministicSpec.digest_values. apply map_ext, value_of_raw_eq. Qed.

Lemma digest_values_length (text_bytes : list Z) (counter : Z) :
  List.length (DeterministicSpec.digest_values text_bytes counter) = 16%nat.
Proof.
  unfold DeterministicSpec.digest_values.
  rewrite length_map, le16_pairs_length, digest_length. reflexivity.
Qed.

Lemma stream_length (n : nat) (text_bytes : list Z) (counter : Z) :
  List.length (DeterministicSpec.stream n text_bytes counter) = (16 * n)%nat.
Proof.
  revert counter; induction n as [|n IH]; intros counter;
    cbn [DeterministicSpec.stream]; [reflexivity|].
  rewrite length_app, digest_values_length, IH. lia.
Qed.

(** Cutting a contribution to the free slots does not change the first
    [d] values. *)
Lemma firstn_cut {A : Type} (d : nat) (v x y : list A) :
  (List.length v <= d)%nat ->
  firstn d ((v ++ firstn (d - List.length v) x) ++ y) = firstn d (v ++ x ++ y).
Proof.
  intros Hv.
  destruct (Nat.le_gt_cases (List.length x) (d - List.length v)) as [Hx|Hx].
  - replace (firstn (d - List.length v) x) with x
      by (symmetry; apply firstn_all2; exact Hx).
    rewrite <- app_assoc. reflexivity.
  - assert (Hl : List.length (v ++ firstn (d - List.length v) x) = d).
    { rewrite length_app, length_firstn. lia. }
    rewrite (firstn_app d (v ++ firstn (d - List.length v) x) y).
    rewrite Hl, Nat.sub_diag, firstn_O, app_nil_r.
    replace (firstn d (v ++ firstn (d - List.length v) x))
      with (v ++ firstn (d - List.length v) x)
      by (symmetry; apply firstn_all2; lia).
    rewrite (firstn_app d v (x ++ y)).
    replace (firstn d v) with v by (symmetry; apply firstn_all2; lia).
    rewrite (firstn_app (d - List.length v) x y).
    replace (d - List.length v - List.length x)%nat with 0%nat by lia.
    rewrite firstn_O, app_nil_r. reflexivity.
Qed.

(** The outer loop, for a text the codec accepts: with [n] digests enough
    to fill the vector and at least [n] iterations of fuel, it returns the
    first [dims] values of what was there followed by the stream. *)
Lemma while_loop_spec (text : pystr) (Henc : encodable text = true) :
  forall n fuel values counter,
    (n <= fuel)%nat -> (List.length values <= dims)%nat ->
    (dims <= List.length values + 16 * n)%nat ->
    DeterministicBackend.while_loop fuel text values counter
    = Return (firstn dims
                (values ++ DeterministicSpec.stream n (DeterministicSpec.utf8 text) counter)).
Proof.
  induction n as [|n IH]; intros fuel values counter Hfuel Hle Hge.
  - assert (Hlen : List.length values = dims) by lia.
    destruct fuel; simpl; rewrite len_lt_dims, Hlen; simpl;
      rewrite app_nil_r, firstn_all2 by lia; reflexivity.
  - destruct fuel as [|fuel]; [lia|].
    cbn [DeterministicBackend.while_loop]. rewrite len_lt_dims.
    destruct (Nat.ltb_spec (List.length values) dims) as [Hlt|Hnlt].
    + rewrite (encode_message text counter Henc). cbn [bind].
      rewrite for_loop_spec by exact Hlt. rewrite digest_values_eq.
      rewrite IH.
      * cbn [DeterministicSpec.stream]. rewrite firstn_cut by exact Hle. reflexivity.
      * lia.
      * rewrite length_app, length_firstn, digest_values_length. lia.
      * rewrite length_app, length_firstn, digest_values_length. lia.
    + rewrite firstn_app, firstn_all2 by lia.
      replace (dims - List.length values)%nat with 0%nat by lia.
      rewrite firstn_O, app_nil_r. reflexivity.
Qed.

Transparent dims.

Lemma collect_values_spec (text : pystr) :
  encodable text = true ->
  DeterministicBackend.collect_values text
  = Return (DeterministicSpec.collected (DeterministicSpec.utf8 text)).
Proof.
  intros Henc. unfold DeterministicBackend.collect_values.
  assert (H1 : (256 <= DeterministicBackend.loop_fuel)%nat)
    by (apply Nat.leb_le; vm_compute; reflexivity).
  assert (H2 : (List.length (@nil R) <= dims)%nat)
    by (apply Nat.leb_le; vm_compute; reflexivity).
  assert (H3 : (dims <= List.length (@nil R) + 16 * 256)%nat)
    by (apply Nat.leb_le; vm_compute; reflexivity).
  rewrite (while_loop_spec text Henc 256 _ [] 0 H1 H2 H3).
  reflexivity.
Qed.

Lemma collect_values_fails (text : pystr) :
  encodable text = false ->
  exists msg, DeterministicBackend.collect_values text
              = Raise (mkExn UnicodeEncodeError msg).
Proof.
  intros Henc. unfold DeterministicBackend.collect_values.
  destruct (encode_message_fails text 0 Henc) as [msg Hmsg].
  exists msg.
  change DeterministicBackend.loop_fuel with (S (Nat.pred DeterministicBackend.loop_fuel)).
  cbn [DeterministicBackend.while_loop]. rewrite len_lt_dims.
  change (List.length (@nil R) <? dims)%nat with true. cbv iota.
  rewrite Hmsg. reflexivity.
Qed.

Lemma collected_length (text_bytes : list Z) :
  List.length (DeterministicSpec.collected text_bytes) = dims.
Proof.
  unfold DeterministicSpec.collected. rewrite length_firstn, stream_length.
  reflexivity.
Qed.

(* ================================================================== *)
(** * Facts about sums of squares and the norm *)
(* ================================================================== *)

Local Open Scope R_scope.

Lemma fold_left_Rplus (xs : list R) (a : R) :
  fold_left Rplus xs a = a + fold_right Rplus 0 xs.
Proof.
  revert a; induction xs as [|x xs IH]; intros a; simpl; [lra|].
  rewrite IH. lra.
Qed.

Lemma sum_squares (v : list R) :
  DeterministicBackend.sum (map (fun value => value * value) v) = sumsq v.
Proof.
  unfold DeterministicBackend.sum. rewrite fold_left_Rplus, Rplus_0_l.
  induction v as [|x v IH]; simpl; [reflexivity|]. rewrite IH. reflexivity.
Qed.

Lemma euclidean_norm_eq (v : list R) :
  DeterministicBackend.euclidean_norm v = sqrt (sumsq v).
Proof. unfold DeterministicBackend.euclidean_norm. rewrite sum_squares. reflexivity. Qed.

Lemma spec_norm_eq (v : list R) :
  DeterministicSpec.norm v = DeterministicBackend.euclidean_norm v.
Proof. rewrite euclidean_norm_eq. reflexivity. Qed.

Lemma sumsq_nonneg (v : list R) : 0 <= sumsq v.
Proof.
  induction v as [|x v IH]; simpl; [lra|].
  pose proof (Rle_0_sqr x) as Hx. unfold Rsqr in Hx. lra.
Qed.

Lemma sumsq_pos (v : list R) :
  v <> [] -> Forall (fun x => x <> 0) v -> 0 < sumsq v.
Proof.
  intros Hne Hall. destruct v as [|x v]; [contradiction|].
  inversion Hall as [|? ? Hx _]; subst. simpl.
  pose proof (sumsq_nonneg v) as Hv.
  pose proof (Rsqr_pos_lt x Hx) as Hxx. unfold Rsqr in Hxx. lra.
Qed.

Lemma sumsq_scaled (v : list R) (n : R) :
  n <> 0 -> sumsq (map (fun x => x / n) v) = sumsq v / (n * n).
Proof.
  intros Hn. induction v as [|x v IH]; simpl.
  - unfold Rdiv. rewrite Rmult_0_l. reflexivity.
  - rewrite IH. field. exact Hn.
Qed.

(** Dividing by the norm gives a vector of norm 1. *)
Lemma normalised_norm (v : list R) :
  0 < sumsq v ->
  DeterministicBackend.euclidean_norm
    (map (fun x => x / DeterministicBackend.euclidean_norm v) v) = 1.
Proof.
  intros Hpos. rewrite !euclidean_norm_eq.
  assert (Hn : 0 < sqrt (sumsq v)) by (apply sqrt_lt_R0; exact Hpos).
  rewrite sumsq_scaled by lra.
  rewrite sqrt_sqrt by lra.
  replace (sumsq v / sumsq v) with 1 by (field; lra).
  apply sqrt_1.
Qed.

Lemma is_value_nonzero (x : R) : is_value x -> x <> 0.
Proof.
  intros [raw [Hraw ->]] H.
  assert (H2 : IZR (2 * raw) = IZR 65535) by (rewrite mult_IZR; lra).
  apply eq_IZR in H2. lia.
Qed.

Lemma is_value_range (x : R) : is_value x -> -1 <= x < 1.0001.
Proof.
  intros [raw [[H0 H1] ->]].
  apply IZR_le in H0, H1. lra.
Qed.

Lemma digest_values_are_values (text_bytes : list Z) (counter : Z) :
  Forall is_value (DeterministicSpec.digest_values text_bytes counter).
Proof.
  unfold DeterministicSpec.digest_values. apply Forall_map.
  eapply Forall_impl; [|apply le16_pairs_raw, digest_octets].
  intros raw Hraw. exists raw. split; [exact Hraw | reflexivity].
Qed.

Lemma stream_values (n : nat) (text_bytes : list Z) (counter : Z) :
  Forall is_value (DeterministicSpec.stream n text_bytes counter).
Proof.
  revert counter; induction n as [|n IH]; intros counter;
    cbn [DeterministicSpec.stream]; [constructor|].
  apply Forall_app; split; [apply digest_values_are_values | apply IH].
Qed.

Lemma Forall_firstn_of {A : Type} (P : A -> Prop) (n : nat) (l : list A) :
  Forall P l -> Forall P (firstn n l).
Proof.
  intros H. rewrite <- (firstn_skipn n l) in H.
  apply Forall_app in H. apply H.
Qed.

Lemma collected_values (text_bytes : list Z) :
  Forall is_value (DeterministicSpec.collected text_bytes).
Proof. apply Forall_firstn_of, stream_values. Qed.

Lemma collected_sumsq_pos (text_bytes : list Z) :
  0 < sumsq (DeterministicSpec.collected text_bytes).
Proof.
  apply sumsq_pos.
  - intros H. pose proof (collected_length text_bytes) as Hl.
    rewrite H in Hl. discriminate Hl.
  - eapply Forall_impl; [|apply collected_values]. apply is_value_nonzero.
Qed.

(** On a vector of positive norm the fallback is not taken. *)
Lemma normalise_positive (values : list R) :
  0 < sumsq values ->
  DeterministicBackend.normalise values
  = Return (map (fun value => value / DeterministicBackend.euclidean_norm values)
                values).
Proof.
  intros Hpos. unfold DeterministicBackend.normalise. cbv zeta.
  destruct (Req_EM_T (DeterministicBackend.euclidean_norm values) 0) as [H0|_];
    [|reflexivity].
  rewrite euclidean_norm_eq in H0.
  pose proof (sqrt_lt_R0 _ Hpos). lra.
Qed.

Lemma vector_for_text_spec (self : DeterministicBackend.t) (text : pystr) :
  encodable text = true ->
  DeterministicBackend._vector_for_text self text
  = Return (DeterministicSpec.vector (DeterministicSpec.utf8 text)).
Proof.
  intros Henc. unfold DeterministicBackend._vector_for_text.
  rewrite (collect_values_spec text Henc). cbn [bind].
  rewrite normalise_positive by apply collected_sumsq_pos.
  unfold DeterministicSpec.vector. cbv zeta. rewrite spec_norm_eq. reflexivity.
Qed.

Local Close Scope R_scope.

(* ================================================================== *)
(** * The digest and the codec on known inputs *)
(* ================================================================== *)

(** The computed constants against FIPS 180-4 (sections 4.2.2 and 5.3.3):
    the first and last round constants and the first and last words of the
    initial hash value. *)
Example round_constants :
  List.length Sha256.K = 64%nat
  /\ nth 0 Sha256.K 0 = 0x428a2f98 /\ nth 63 Sha256.K 0 = 0xc67178f2
  /\ List.length Sha256.H0 = 8%nat
  /\ nth 0 Sha256.H0 0 = 0x6a09e667 /\ nth 7 Sha256.H0 0 = 0x5be0cd19.
Proof. repeat split. Qed.

(** The digest of "abc" (FIPS 180-4, appendix B.1). *)
Example digest_abc :
  Sha256.digest [97; 98; 99]
  = [186; 120; 22; 191; 143; 1; 207; 234; 65; 65; 64; 222; 93; 174; 34; 35;
     176; 3; 97; 163; 150; 23; 122; 156; 180; 16; 255; 97; 242; 0; 21; 173].
Proof. vm_compute. reflexivity. Qed.

(** The digest of the empty message. *)
Example digest_empty :
  Sha256.digest []
  = [227; 176; 196; 66; 152; 252; 28; 20; 154; 251; 244; 200; 153; 111; 185; 36;
     39; 174; 65; 228; 100; 155; 147; 76; 164; 149; 153; 27; 120; 82; 184; 85].
Proof. vm_compute. reflexivity. Qed.

(** A message of two blocks: one hundred times "a". *)
Example digest_two_blocks :
  Sha256.digest (repeat 97 100)
  = [40; 22; 89; 120; 136; 228; 160; 211; 163; 107; 130; 184; 51; 22; 171; 50;
     104; 14; 184; 240; 15; 140; 211; 185; 4; 214; 129; 36; 109; 40; 90; 14].
Proof. vm_compute. reflexivity. Qed.

(** The sixteen raw integers of the first digest for "hello world", and of
    the last one (counter 255). *)
Example hello_world_first_raws :
  DeterministicSpec.le16_pairs
    (Sha256.digest (DeterministicSpec.message
                      (DeterministicSpec.utf8 Samples.hello_world) 0))
  = [36488; 5729; 10392; 57706; 5707; 57322; 32751; 40837;
     21026; 2821; 7308; 6498; 61071; 34005; 20971; 36296].
Proof. vm_compute. reflexivity. Qed.

Example hello_world_last_raws :
  DeterministicSpec.le16_pairs
    (Sha256.digest (DeterministicSpec.message
                      (DeterministicSpec.utf8 Samples.hello_world) 255))
  = [4572; 63041; 11012; 26282; 58451; 11012; 6768; 37958;
     17797; 58309; 43904; 21715; 24231; 30639; 39806; 1136].
Proof. vm_compute. reflexivity. Qed.

(** UTF-8 on two, three and four octets: e acute, the euro sign, an emoji. *)
Example utf8_samples :
  encode_utf8 [233; 8364; 128512]
  = Return [195; 169; 226; 130; 172; 240; 159; 152; 128].
Proof. vm_compute. reflexivity. Qed.

Example strip_sample :
  strip (pystr_of_string "  a b	 ") = pystr_of_string "a b".
Proof. vm_compute. reflexivity. Qed.

(* ================================================================== *)
(** * The deterministic backend: claims C1, C2 and C9 *)
(* ================================================================== *)


Lemma comprehension_app {A B : Type} (f : A -> outcome B) (l1 l2 : list A) :
  comprehension f (l1 ++ l2)
  = bind (comprehension f l1) (fun ys1 =>
    bind (comprehension f l2) (fun ys2 => Return (ys1 ++ ys2))).
Proof.
  induction l1 as [|x l1 IH]; cbn [comprehension app bind].
  - destruct (comprehension f l2); reflexivity.
  - destruct (f x); cbn [bind]; try reflexivity.
    rewrite IH. destruct (comprehension f l1); cbn [bind]; try reflexivity.
    destruct (comprehension f l2); reflexivity.
Qed.

(** ** Calls under a schedule *)









Section OneCall.

Variable self : Threads.object.
Hypothesis self_dimensions :
  Threads.dimensions self = DeterministicBackend.dimensions.







End OneCall.



Lemma nth_error_update_none {A : Type} (f : A -> A) (l : list A) :
  forall n, nth_error l n = None -> Threads.update n f l = l.
Proof.
  induction l as [|y l IH]; intros [|n] H; try reflexivity; try discriminate.
  cbn [Threads.update nth_error] in *. rewrite IH by exact H. reflexivity.
Qed.










(** In a batch, the vector of a text is the one it has alone: the batch is
    the concatenation of what each part gives. *)
Lemma embed_batch (self : DeterministicBackend.t) (before after : list pystr)
    (s : pystr) (m : Z) :
  DeterministicBackend.embed self (before ++ s :: after) m
  = bind (DeterministicBackend.embed self before m) (fun vs1 =>
    bind (DeterministicBackend.embed self (s :: after) m) (fun vs2 =>
    Return (vs1 ++ vs2))).
Proof. unfold DeterministicBackend.embed. cbv zeta. apply comprehension_app. Qed.

(** C2, as stated, fails on a text the UTF-8 codec refuses: for the one
    code point U+D800 (a lone surrogate, which JSON can deliver) the first
    digest is never computed and no vector is produced. *)
Lemma C2_lone_surrogate_raises :
  DeterministicBackend._vector_for_text (DeterministicBackend.mk "m") [55296]
  = Raise (mkExn UnicodeEncodeError
             "'utf-8' codec can't encode character: surrogates not allowed").
Proof. vm_compute. reflexivity. Qed.

(** C2, amended.  For every text the UTF-8 codec accepts, the backend
    returns the vector of the specified algorithm (SHA-256 of the text, a
    newline and the counter from 0 on; 2-byte little-endian integers mapped
    by raw / 32767.5 - 1; the first 4096 values; every component divided by
    the Euclidean norm); it has exactly 4096 components and its Euclidean
    norm, in exact real arithmetic, is 1. *)
Theorem C2_vector_for_text (self : DeterministicBackend.t) (text : pystr) :
  encodable text = true ->
  DeterministicBackend._vector_for_text self text
  = Return (DeterministicSpec.vector (DeterministicSpec.utf8 text))
  /\ len (DeterministicSpec.vector (DeterministicSpec.utf8 text)) = 4096
  /\ DeterministicBackend.euclidean_norm
       (DeterministicSpec.vector (DeterministicSpec.utf8 text)) = 1%R.
Proof.
  intros Henc. split; [apply vector_for_text_spec; exact Henc|]. split.
  - unfold len, DeterministicSpec.vector. cbv zeta.
    rewrite length_map, collected_length. reflexivity.
  - unfold DeterministicSpec.vector. cbv zeta. rewrite spec_norm_eq.
    apply normalised_norm, collected_sumsq_pos.
Qed.

Lemma C2_vector_for_text_witness :
  encodable Samples.hello_world = true
  /\ DeterministicBackend._vector_for_text (DeterministicBackend.mk "m")
       Samples.hello_world
     = Return (DeterministicSpec.vector (DeterministicSpec.utf8 Samples.hello_world))
  /\ len (DeterministicSpec.vector (DeterministicSpec.utf8 Samples.hello_world)) = 4096
  /\ DeterministicBackend.euclidean_norm
       (DeterministicSpec.vector (DeterministicSpec.utf8 Samples.hello_world)) = 1%R.
Proof.
  split; [reflexivity|].
  apply (C2_vector_for_text (DeterministicBackend.mk "m") Samples.hello_world).
  reflexivity.
Defined.

(** C9.  Whatever the text, the loop never runs out of iterations; when it
    raises, the text is one the codec refuses and nothing is normalised;
    when it returns, the vector has 4096 components, each the image
    raw / 32767.5 - 1 of an integer raw in [0, 65535] and none zero, its
    Euclidean norm is strictly positive, and normalisation divides by that
    norm: the zero-norm fallback is not taken.  For a text the codec
    accepts the loop returns. *)
Theorem C9_norm_positive (text : pystr) :
  (encodable text = true ->
   exists values, DeterministicBackend.collect_values text = Return values)
  /\ match DeterministicBackend.collect_values text with
     | Return values =>
         len values = 4096
         /\ Forall (fun v => is_value v /\ v <> 0%R) values
         /\ (0 < DeterministicBackend.euclidean_norm values)%R
         /\ DeterministicBackend.normalise values
            = Return (map (fun v => (v / DeterministicBackend.euclidean_norm values)%R)
                          values)
     | Raise e => encodable text = false /\ exn_cls e = UnicodeEncodeError
     | OutOfFuel => False
     end.
Proof.
  split.
  - intros Henc. eexists. apply collect_values_spec. exact Henc.
  - destruct (encodable text) eqn:Henc.
    + rewrite (collect_values_spec text Henc).
      pose proof (collected_sumsq_pos (DeterministicSpec.utf8 text)) as Hpos.
      split; [|split; [|split]].
      * unfold len. rewrite collected_length. reflexivity.
      * eapply Forall_impl; [|apply collected_values].
        intros v Hv. split; [exact Hv | apply is_value_nonzero; exact Hv].
      * rewrite euclidean_norm_eq. apply sqrt_lt_R0. exact Hpos.
      * apply normalise_positive. exact Hpos.
    + destruct (collect_values_fails text Henc) as [msg ->].
      split; reflexivity.
Qed.

Lemma C9_norm_positive_witness :
  exists values,
    DeterministicBackend.collect_values Samples.hello_world = Return values
    /\ len values = 4096
    /\ (0 < DeterministicBackend.euclidean_norm values)%R.
Proof.
  destruct (C9_norm_positive Samples.hello_world) as [Hreturns Hvalues].
  destruct (Hreturns eq_refl) as [values Hv].
  rewrite Hv in Hvalues. exists values.
  split; [exact Hv|]. split; [apply Hvalues | apply Hvalues].
Defined.

(* ================================================================== *)
(** * The input validator: claims C3, C10 and C4 *)
(* ================================================================== *)

Lemma clean_loop_strings (items : list pystr) :
  forall index cleaned,
    clean_loop (map PStr items) index cleaned = Return (cleaned ++ surviving items).
Proof.
  induction items as [|s items IH]; intros index cleaned.
  - cbn [map clean_loop]. unfold surviving. cbn [map filter].
    rewrite app_nil_r. reflexivity.
  - cbn [map clean_loop]. unfold surviving in *. cbn [map filter].
    destruct (negb (pystr_eqb (strip s) [])).
    + rewrite IH, <- app_assoc. reflexivity.
    + apply IH.
Qed.

(** The validator sees the object only through [text_payload]. *)
Lemma parse_input_texts_payload (data data' : pydict) (max_items : Z) :
  text_payload data = text_payload data' ->
  parse_input_texts data max_items = parse_input_texts data' max_items.
Proof. intros H. unfold parse_input_texts. rewrite H. reflexivity. Qed.

Lemma parse_input_texts_strings (data : pydict) (max_items : Z)
    (items : list pystr) :
  text_payload data = PList (map PStr items) ->
  parse_input_texts data max_items
  = if len (surviving items) =? 0 then
      raise ValueError "request contains no non-empty texts"
    else if len (surviving items) >? max_items then
      raise ValueError ("too many texts: got " ++ str_of_int (len (surviving items))
                        ++ ", max " ++ str_of_int max_items)
    else Return (surviving items).
Proof.
  intros H. unfold parse_input_texts. rewrite H. cbn [is_None bind].
  rewrite clean_loop_strings. cbn [app bind]. reflexivity.
Qed.

(** What the validator returns is never empty. *)
Lemma parse_input_texts_nonempty (data : pydict) (max_items : Z)
    (texts : list pystr) :
  parse_input_texts data max_items = Return texts -> texts <> [].
Proof.
  unfold parse_input_texts. destruct (is_None (text_payload data)); [discriminate|].
  destruct (match text_payload data with
            | PStr _ => _ | PList items => _ | _ => _ end) as [ts| |];
    cbn [bind]; try discriminate.
  destruct (clean_loop ts 0 []) as [cleaned| |]; cbn [bind]; try discriminate.
  destruct (Z.eqb_spec (len cleaned) 0) as [|Hne]; [discriminate|].
  destruct (len cleaned >? max_items); [discriminate|].
  intros H; injection H as <-. intros ->. apply Hne. reflexivity.
Qed.

(** C3.  When the text payload is a list of strings, the validator trims
    every string, drops the empty results, and fails exactly when none
    survives (the empty-input error) or when more survive than the maximum
    (the too-many error, whose message gives the count and the limit);
    otherwise it returns the surviving strings in input order. *)
Theorem C3_parse_list_of_strings (data : pydict) (max_items : Z)
    (items : list pystr) :
  text_payload data = PList (map PStr items) ->
  let cleaned := filter (fun text => negb (pystr_eqb text [])) (map strip items) in
  (cleaned = [] ->
   parse_input_texts data max_items
   = Raise (mkExn ValueError "request contains no non-empty texts"))
  /\ (cleaned <> [] -> len cleaned > max_items ->
      parse_input_texts data max_items
      = Raise (mkExn ValueError
                 ("too many texts: got " ++ str_of_int (len cleaned)
                  ++ ", max " ++ str_of_int max_items)))
  /\ (cleaned <> [] -> len cleaned <= max_items ->
      parse_input_texts data max_items = Return cleaned)
  /\ ((exists e, parse_input_texts data max_items = Raise e)
      <-> cleaned = [] \/ len cleaned > max_items).
Proof.
  intros H cleaned.
  assert (Hp := parse_input_texts_strings data max_items items H).
  change (surviving items) with cleaned in Hp.
  assert (Hlen : len cleaned = 0 <-> cleaned = []).
  { unfold len. destruct cleaned; cbn [List.length]; split; intros E;
      try reflexivity; try discriminate; lia. }
  split; [|split; [|split]].
  - intros Hnil. rewrite Hp.
    destruct (Z.eqb_spec (len cleaned) 0); [reflexivity | tauto].
  - intros Hne Hgt. rewrite Hp.
    destruct (Z.eqb_spec (len cleaned) 0); [tauto|].
    destruct (Z.gtb_spec (len cleaned) max_items); [reflexivity | lia].
  - intros Hne Hle. rewrite Hp.
    destruct (Z.eqb_spec (len cleaned) 0); [tauto|].
    destruct (Z.gtb_spec (len cleaned) max_items); [lia | reflexivity].
  - rewrite Hp. destruct (Z.eqb_spec (len cleaned) 0) as [H0|H0].
    + split; [intros _; left; tauto | intros _; eexists; reflexivity].
    + destruct (Z.gtb_spec (len cleaned) max_items) as [Hgt|Hle].
      * split; [intros _; right; lia | intros _; eexists; reflexivity].
      * split; [intros [e He]; discriminate He | intros [E|E]; [tauto | lia]].
Qed.

Lemma C3_parse_list_of_strings_witness :
  let data := [(key "texts",
                PList (map PStr [pystr_of_string "  a "; pystr_of_string "   ";
                                 pystr_of_string "b"]))] in
  text_payload data
  = PList (map PStr [pystr_of_string "  a "; pystr_of_string "   ";
                     pystr_of_string "b"])
  /\ parse_input_texts data 64
     = Return [pystr_of_string "a"; pystr_of_string "b"]
  /\ parse_input_texts data 1
     = Raise (mkExn ValueError "too many texts: got 2, max 1").
Proof.
  pose (items := [pystr_of_string "  a "; pystr_of_string "   ";
                  pystr_of_string "b"]).
  pose (data := [(key "texts", PList (map PStr items))]).
  split; [reflexivity|]. split.
  - apply (C3_parse_list_of_strings data 64 items eq_refl);
      [discriminate | vm_compute; discriminate].
  - apply (C3_parse_list_of_strings data 1 items eq_refl);
      [discriminate | vm_compute; reflexivity].
Defined.

(** C10.  With both keys present the value of "texts" decides and "input"
    is ignored, unless "texts" is [None], in which case the value of
    "input" decides; "texts" being [None] with no "input" key is the
    missing-field error. *)
Theorem C10_texts_before_input (data : pydict) (max_items : Z) :
  (forall texts_value input_value,
     dict_lookup data (key "texts") = Some texts_value ->
     dict_lookup data (key "input") = Some input_value ->
     (texts_value <> PNone ->
      parse_input_texts data max_items
      = parse_input_texts [(key "texts", texts_value)] max_items)
     /\ (texts_value = PNone ->
         parse_input_texts data max_items
         = parse_input_texts [(key "input", input_value)] max_items))
  /\ (dict_lookup data (key "texts") = Some PNone ->
      dict_lookup data (key "input") = None ->
      parse_input_texts data max_items
      = Raise (mkExn ValueError "missing 'texts' or 'input' field")).
Proof.
  split.
  - intros t i Ht Hi. split; intros Hnone; apply parse_input_texts_payload;
      unfold text_payload, dict_get, dict_contains; rewrite Ht, Hi.
    + destruct t; try contradiction; reflexivity.
    + subst t. reflexivity.
  - intros Ht Hi. unfold parse_input_texts, text_payload, dict_get, dict_contains.
    rewrite Ht, Hi. reflexivity.
Qed.

Lemma C10_texts_before_input_witness :
  let a := PList [PStr (pystr_of_string "from texts")] in
  let b := PList [PStr (pystr_of_string "from input")] in
  parse_input_texts [(key "input", b); (key "texts", a)] 64
  = Return [pystr_of_string "from texts"]
  /\ parse_input_texts [(key "texts", PNone); (key "input", b)] 64
     = Return [pystr_of_string "from input"]
  /\ parse_input_texts [(key "texts", PNone)] 64
     = Raise (mkExn ValueError "missing 'texts' or 'input' field").
Proof.
  pose (a := PList [PStr (pystr_of_string "from texts")]).
  pose (b := PList [PStr (pystr_of_string "from input")]).
  split; [|split].
  - transitivity (parse_input_texts [(key "texts", a)] 64); [|reflexivity].
    refine (proj1 (proj1 (C10_texts_before_input
                            [(key "input", b); (key "texts", a)] 64)
                         a b eq_refl eq_refl) _).
    discriminate.
  - transitivity (parse_input_texts [(key "input", b)] 64); [|reflexivity].
    exact (proj2 (proj1 (C10_texts_before_input
                           [(key "texts", PNone); (key "input", b)] 64)
                        PNone b eq_refl eq_refl) eq_refl).
  - exact (proj2 (C10_texts_before_input [(key "texts", PNone)] 64)
                 eq_refl eq_refl).
Defined.

Lemma clamp_cases (v : Z) :
  clamped v (if v <? 8 then 8 else if v >? 4096 then 4096 else v).
Proof.
  unfold clamped.
  destruct (Z.ltb_spec v 8); [repeat split; intros; try reflexivity; lia|].
  destruct (Z.gtb_spec v 4096); repeat split; intros; try reflexivity; lia.
Qed.

Lemma parse_max_length_coerced (lib : PyLib) (data : pydict) (d v : Z) :
  int_ lib (dict_get data (key "max_length") (PInt d)) = Return v ->
  parse_max_length lib data d
  = Return (if v <? 8 then 8 else if v >? 4096 then 4096 else v).
Proof.
  intros H. unfold parse_max_length. cbv zeta. rewrite H.
  destruct (v <? 8); [reflexivity|]. destruct (v >? 4096); reflexivity.
Qed.

(** C4, as stated, fails twice.  With the field absent and a configured
    default above 4096 the result is 4096, not the default; and a value
    that is a float infinity (JSON [Infinity] or [1e999]) makes [int] raise
    [OverflowError], which the function does not catch. *)
Lemma C4_default_clamped_and_infinity_raises :
  parse_max_length (Samples.lib_parsing_to PNone) [] 5000 = Return 4096
  /\ parse_max_length (Samples.lib_parsing_to PNone)
       [(key "max_length", PFloat (Infinity false))] 512
     = Raise (mkExn OverflowError "cannot convert float infinity to integer").
Proof. split; reflexivity. Qed.

(** C4, amended.  With the field absent the result is the default brought
    into [8, 4096]; when [int] on the field's value raises [TypeError] or
    [ValueError] the result is the default, unchanged; when [int] gives [v]
    the result is 8 for [v < 8], 4096 for [v > 4096] and [v] otherwise.
    (What happens when [int] raises another exception is left out.) *)
Theorem C4_parse_max_length (lib : PyLib) (data : pydict) (d : Z) :
  (dict_lookup data (key "max_length") = None ->
   exists result, parse_max_length lib data d = Return result /\ clamped d result)
  /\ (forall raw e,
        dict_lookup data (key "max_length") = Some raw ->
        int_ lib raw = Raise e -> is_TypeError_or_ValueError e = true ->
        parse_max_length lib data d = Return d)
  /\ (forall raw v,
        dict_lookup data (key "max_length") = Some raw ->
        int_ lib raw = Return v ->
        exists result,
          parse_max_length lib data d = Return result /\ clamped v result).
Proof.
  split; [|split].
  - intros Habs. eexists. split; [|apply clamp_cases].
    apply parse_max_length_coerced. unfold dict_get. rewrite Habs. reflexivity.
  - intros raw e Hraw Hint Hcls. unfold parse_max_length, dict_get. cbv zeta.
    rewrite Hraw, Hint, Hcls. reflexivity.
  - intros raw v Hraw Hint. eexists. split; [|apply clamp_cases].
    apply parse_max_length_coerced. unfold dict_get. rewrite Hraw. exact Hint.
Qed.

Lemma C4_parse_max_length_witness :
  let lib := Samples.lib_parsing_to PNone in
  (exists result, parse_max_length lib [] 512 = Return result /\ clamped 512 result)
  /\ parse_max_length lib [(key "max_length", PNone)] 512 = Return 512
  /\ parse_max_length lib [(key "max_length", PStr (pystr_of_string "abc"))] 512
     = Return 512
  /\ (exists result,
        parse_max_length lib [(key "max_length", PInt 4)] 512 = Return result
        /\ clamped 4 result)
  /\ (exists result,
        parse_max_length lib [(key "max_length", PStr (pystr_of_string "99999"))] 512
        = Return result
        /\ clamped 99999 result).
Proof.
  pose (lib := Samples.lib_parsing_to PNone).
  split; [|split; [|split; [|split]]].
  - exact (proj1 (C4_parse_max_length lib [] 512) eq_refl).
  - exact (proj1 (proj2 (C4_parse_max_length lib [(key "max_length", PNone)] 512))
                 PNone _ eq_refl eq_refl eq_refl).
  - exact (proj1 (proj2 (C4_parse_max_length lib
                           [(key "max_length", PStr (pystr_of_string "abc"))] 512))
                 (PStr (pystr_of_string "abc")) _ eq_refl eq_refl eq_refl).
  - exact (proj2 (proj2 (C4_parse_max_length lib [(key "max_length", PInt 4)] 512))
                 (PInt 4) 4 eq_refl eq_refl).
  - exact (proj2 (proj2 (C4_parse_max_length lib
                           [(key "max_length", PStr (pystr_of_string "99999"))] 512))
                 (PStr (pystr_of_string "99999")) 99999 eq_refl eq_refl).
Defined.

(** The two boundary cases of the specification. *)
Example max_length_boundaries :
  parse_max_length (Samples.lib_parsing_to PNone) [(key "max_length", PInt 4)] 512
  = Return 8
  /\ parse_max_length (Samples.lib_parsing_to PNone)
       [(key "max_length", PInt 99999)] 512
     = Return 4096.
Proof. split; reflexivity. Qed.

(* ================================================================== *)
(** * Backend construction: claim C5 *)
(* ================================================================== *)

Lemma deterministic_dimensions (self : DeterministicBackend.t) :
  dimensions (DeterministicBackend.as_backend self) = PIPELINE_VECTOR_DIMENSIONS.
Proof. reflexivity. Qed.

Lemma create_backend_dimensions (hub : ModelHub) (settings : Settings)
    (b : EmbeddingBackend) :
  create_backend hub settings = Return b ->
  construct_backend hub settings = Return b
  /\ dimensions b = PIPELINE_VECTOR_DIMENSIONS.
Proof.
  unfold create_backend.
  destruct (construct_backend hub settings) as [b'| |]; cbn [bind]; try discriminate.
  destruct (Z.eqb_spec (dimensions b') PIPELINE_VECTOR_DIMENSIONS) as [Heq|Hne];
    cbn [negb]; [|discriminate].
  intros H; injection H as <-. split; [reflexivity | exact Heq].
Qed.

(** C5, as stated, fails: construction also fails for a backend name that
    is neither of the two known ones (the environment can set one), and
    then no backend was constructed whose dimensionality could differ. *)
Lemma C5_unsupported_backend_fails :
  let hub := Samples.hub_of 4096 [] in
  let settings := Samples.settings_for "onnx" in
  create_backend hub settings
  = Raise (mkExn ValueError "unsupported backend: onnx")
  /\ construct_backend hub settings
     = Raise (mkExn ValueError "unsupported backend: onnx").
Proof. split; reflexivity. Qed.

(** C5, amended.  Construction raises exactly when selecting or loading the
    backend raises (an unsupported name, or a model that fails to load) or
    the constructed backend declares a dimensionality other than 4096;
    whenever it returns, the backend's dimensionality is 4096; the server
    creates its listener only after construction returned, so the backend
    of every state it serves from has dimensionality 4096. *)
Theorem C5_dimension_guard (hub : ModelHub) (settings : Settings) :
  (raises (create_backend hub settings)
   <-> raises (construct_backend hub settings)
       \/ exists b, construct_backend hub settings = Return b
                    /\ dimensions b <> PIPELINE_VECTOR_DIMENSIONS)
  /\ (raises (construct_backend hub settings)
      <-> (backend settings <> "deterministic"%string
           /\ backend settings <> "transformers"%string)
          \/ (backend settings = "transformers"%string
              /\ raises (load_model hub (model_name settings) (dtype settings))))
  /\ (forall b, create_backend hub settings = Return b ->
                dimensions b = PIPELINE_VECTOR_DIMENSIONS)
  /\ (forall now listening,
        run_server hub settings now = Return listening ->
        dimensions (state_backend (served listening)) = PIPELINE_VECTOR_DIMENSIONS
        /\ create_backend hub settings = Return (state_backend (served listening))).
Proof.
  split; [|split; [|split]].
  - unfold raises, create_backend.
    destruct (construct_backend hub settings) as [b| e |]; cbn [bind].
    + destruct (Z.eqb_spec (dimensions b) PIPELINE_VECTOR_DIMENSIONS) as [Heq|Hne];
        cbn [negb].
      * split; [intros [e He]; discriminate He|].
        intros [[e He]|[b' [Hb' Hd]]]; [discriminate He|].
        injection Hb' as <-. contradiction.
      * split; [|intros _; eexists; reflexivity].
        intros _. right. exists b. split; [reflexivity | exact Hne].
    + split; [intros _; left; eexists; reflexivity | intros _; eexists; reflexivity].
    + split; [intros [e He]; discriminate He|].
      intros [[e He]|[b [Hb _]]]; discriminate.
  - unfold raises, construct_backend, TransformersBackend.init.
    destruct (String.eqb_spec (backend settings) "deterministic") as [Hd|Hd].
    + split; [intros [e He]; discriminate He|].
      intros [[H _]|[H _]]; [contradiction|]. rewrite Hd in H. discriminate H.
    + destruct (String.eqb_spec (backend settings) "transformers") as [Ht|Ht].
      * destruct (load_model hub (model_name settings) (dtype settings))
          as [m| e |]; cbn [bind].
        -- split; [intros [e He]; discriminate He|].
           intros [[_ H]|[_ [e He]]]; [contradiction | discriminate He].
        -- split; [|intros _; eexists; reflexivity].
           intros _. right. split; [exact Ht | eexists; reflexivity].
        -- split; [intros [e He]; discriminate He|].
           intros [[_ H]|[_ [e He]]]; [contradiction | discriminate He].
      * split; [intros _; left; split; assumption | intros _; eexists; reflexivity].
  - intros b Hb. apply (create_backend_dimensions hub settings b Hb).
  - intros now listening. unfold run_server.
    destruct (create_backend hub settings) as [b| |] eqn:Hb; cbn [bind];
      try discriminate.
    intros H; injection H as <-. cbn [served state_backend].
    split; [apply (create_backend_dimensions hub settings b Hb) | reflexivity].
Qed.

Lemma C5_dimension_guard_witness :
  let hub := Samples.hub_of 1024 [] in
  raises (create_backend hub (Samples.settings_for "transformers"))
  /\ raises (create_backend hub (Samples.settings_for "onnx"))
  /\ (forall now listening,
        run_server hub (Samples.settings_for "deterministic") now = Return listening ->
        dimensions (state_backend (served listening)) = PIPELINE_VECTOR_DIMENSIONS
        /\ create_backend hub (Samples.settings_for "deterministic")
           = Return (state_backend (served listening))).
Proof.
  pose (hub := Samples.hub_of 1024 []).
  split; [|split].
  - apply (proj1 (C5_dimension_guard hub (Samples.settings_for "transformers"))).
    right. eexists. split; [reflexivity | vm_compute; discriminate].
  - apply (proj1 (C5_dimension_guard hub (Samples.settings_for "onnx"))).
    left. eexists. reflexivity.
  - exact (proj2 (proj2 (proj2
             (C5_dimension_guard hub (Samples.settings_for "deterministic"))))).
Defined.

(* ================================================================== *)
(** * The HTTP handler: claims C6, C7 and C8 *)
(* ================================================================== *)

Section HandlerFacts.

Variable lib : PyLib.
Variable state : ServiceState.

Lemma validate_with_path (req : Request) (p : string) :
  validate lib state (with_path req p) = validate lib state req.
Proof. reflexivity. Qed.

Lemma validate_nonempty (req : Request) (texts : list pystr) (ml : Z) :
  validate lib state req = Return (texts, ml) -> texts <> [].
Proof.
  unfold validate.
  destruct (_read_json lib state req) as [body| |]; cbn [bind]; try discriminate.
  destruct (parse_input_texts body (max_items (settings state))) as [ts| |] eqn:Hp;
    cbn [bind]; try discriminate.
  destruct (parse_max_length lib body (max_length (settings state)));
    cbn [bind]; try discriminate.
  intros H; injection H as <- _.
  apply (parse_input_texts_nonempty _ _ _ Hp).
Qed.

(** On one of the two endpoints the handler is its pipeline. *)
Lemma do_POST_endpoint (req : Request) (clock : Clock) :
  path req = "/embed"%string \/ path req = "/v1/embeddings"%string ->
  do_POST lib state req clock
  = match validate lib state req with
    | Raise exc =>
        if is_ValueError exc then
          Return (_write_error HTTPStatus.BAD_REQUEST (exn_msg exc))
        else if is_JSONDecodeError exc then
          Return (_write_error HTTPStatus.BAD_REQUEST "invalid JSON body")
        else Raise exc
    | OutOfFuel => OutOfFuel
    | Return (texts, max_length) =>
        match embed (state_backend state) texts max_length with
        | Raise exc =>
            Return (_write_error HTTPStatus.INTERNAL_SERVER_ERROR
                                 ("inference failed: " ++ exn_msg exc))
        | OutOfFuel => OutOfFuel
        | Return vectors => Return (respond state req clock texts vectors)
        end
    end.
Proof.
  intros H. unfold do_POST.
  destruct H as [-> | ->]; reflexivity.
Qed.

(** The three ways out of the checks on what the backend returned. *)
Lemma respond_cases (req : Request) (clock : Clock) (texts : list pystr)
    (vectors : list (list R)) :
  (len vectors <> len texts
   /\ exists msg, respond state req clock texts vectors
                  = _write_error HTTPStatus.INTERNAL_SERVER_ERROR msg)
  \/ (len vectors = len texts
      /\ (exists first rest, vectors = first :: rest
                             /\ len first <> dimensions (state_backend state))
      /\ exists msg, respond state req clock texts vectors
                     = _write_error HTTPStatus.INTERNAL_SERVER_ERROR msg)
  \/ (len vectors = len texts
      /\ (forall first rest, vectors = first :: rest ->
                             len first = dimensions (state_backend state))
      /\ respond state req clock texts vectors
         = _write_json HTTPStatus.OK
             (if String.eqb (path req) "/v1/embeddings"
              then openai_payload state vectors
              else native_payload state vectors clock)).
Proof.
  unfold respond.
  destruct (Z.eqb_spec (len vectors) (len texts)) as [Heq|Hne]; cbn [negb].
  - destruct vectors as [|first rest].
    + right; right. split; [exact Heq|]. split; [intros ? ? H; discriminate H|].
      reflexivity.
    + assert (Hpos : (len (first :: rest) >? 0) = true).
      { unfold len. cbn [List.length]. apply Z.gtb_lt. lia. }
      rewrite Hpos. cbn [hd andb].
      destruct (Z.eqb_spec (len first) (dimensions (state_backend state)))
        as [Hd|Hd]; cbn [negb].
      * right; right. split; [exact Heq|]. split; [|reflexivity].
        intros f r H. injection H as <- _. exact Hd.
      * right; left. split; [exact Heq|]. split; [|eexists; reflexivity].
        exists first, rest. split; [reflexivity | exact Hd].
  - left. split; [exact Hne | eexists; reflexivity].
Qed.

Lemma native_vectors_payload (vectors : list (list R)) (clock : Clock) :
  native_vectors (_write_json HTTPStatus.OK (native_payload state vectors clock))
  = Some (map json_of_vector vectors).
Proof. reflexivity. Qed.

Lemma embedding_fields (vectors : list (list R)) :
  forall start,
    map (fun item => match item with
                     | PDict e => dict_get e (key "embedding") PNone
                     | _ => PNone
                     end)
        (map (fun iv => PDict [ (key "object", text_ "embedding");
                                (key "index", PInt (fst iv));
                                (key "embedding", json_of_vector (snd iv)) ])
             (enumerate start vectors))
    = map json_of_vector vectors.
Proof.
  induction vectors as [|v vectors IH]; intros start; [reflexivity|].
  cbn [enumerate map]. rewrite IH. f_equal.
Qed.

Lemma openai_vectors_payload (vectors : list (list R)) :
  openai_vectors (_write_json HTTPStatus.OK (openai_payload state vectors))
  = Some (map json_of_vector vectors).
Proof.
  transitivity
    (Some (map (fun item => match item with
                            | PDict e => dict_get e (key "embedding") PNone
                            | _ => PNone
                            end)
               (map (fun iv => PDict [ (key "object", text_ "embedding");
                                       (key "index", PInt (fst iv));
                                       (key "embedding", json_of_vector (snd iv)) ])
                    (enumerate 0 vectors)))).
  - reflexivity.
  - rewrite embedding_fields. reflexivity.
Qed.

Lemma error_vectors (code : Z) (msg : string) :
  native_vectors (_write_error code msg) = None
  /\ openai_vectors (_write_error code msg) = None.
Proof. split; reflexivity. Qed.

End HandlerFacts.

(** C6.  When the body passes validation and the backend call returns, the
    handler answers 500 exactly when the number of vectors differs from the
    number of validated texts or the first vector's width differs from the
    backend's declared dimensionality; otherwise it answers 200 with the
    envelope of the endpoint. *)
Theorem C6_contract_checks (lib : PyLib) (state : ServiceState) (req : Request)
    (clock : Clock) (texts : list pystr) (truncation : Z)
    (vectors : list (list R)) :
  path req = "/embed"%string \/ path req = "/v1/embeddings"%string ->
  validate lib state req = Return (texts, truncation) ->
  embed (state_backend state) texts truncation = Return vectors ->
  exists response,
    do_POST lib state req clock = Return response
    /\ (status response = HTTPStatus.INTERNAL_SERVER_ERROR
        <-> len vectors <> len texts
            \/ exists first rest,
                 vectors = first :: rest
                 /\ len first <> dimensions (state_backend state))
    /\ (status response <> HTTPStatus.INTERNAL_SERVER_ERROR ->
        response
        = _write_json HTTPStatus.OK
            (if String.eqb (path req) "/v1/embeddings"
             then openai_payload state vectors
             else native_payload state vectors clock)).
Proof.
  intros Hpath Hval Hemb.
  rewrite (do_POST_endpoint lib state req clock Hpath), Hval, Hemb.
  eexists. split; [reflexivity|].
  destruct (respond_cases state req clock texts vectors)
    as [[Hne [msg ->]] | [[Heq [Hbad [msg ->]]] | [Heq [Hgood ->]]]].
  - split; [split; [intros _; left; exact Hne | reflexivity]|].
    intros H. exfalso. apply H. reflexivity.
  - split; [split; [intros _; right; exact Hbad | reflexivity]|].
    intros H. exfalso. apply H. reflexivity.
  - split; [|reflexivity]. split; [discriminate|].
    intros [Hne | [first [rest [Hv Hd]]]]; [contradiction|].
    exfalso. apply Hd. apply (Hgood first rest Hv).
Qed.

Lemma C6_contract_checks_witness :
  let lib := Samples.lib_parsing_to one_text in
  let good := model_state 2 [[0%R; 1%R]] in
  let narrow := model_state 2 [[1%R]] in
  let clock := mkClock 0%R 0%R in
  (exists response,
     do_POST lib good (post_to "/embed") clock = Return response
     /\ status response = HTTPStatus.OK)
  /\ (exists response,
        do_POST lib narrow (post_to "/embed") clock = Return response
        /\ status response = HTTPStatus.INTERNAL_SERVER_ERROR).
Proof.
  pose (lib := Samples.lib_parsing_to one_text).
  pose (clock := mkClock 0%R 0%R).
  split.
  - destruct (C6_contract_checks lib (model_state 2 [[0%R; 1%R]])
                (post_to "/embed") clock [pystr_of_string "a"] 512 [[0%R; 1%R]]
                (or_introl eq_refl) eq_refl eq_refl)
      as [response [Hpost [_ Hok]]].
    exists response. split; [exact Hpost|].
    assert (Hresp : Return response
                    = Return (_write_json HTTPStatus.OK
                                (native_payload (model_state 2 [[0%R; 1%R]])
                                   [[0%R; 1%R]] clock)))
      by (rewrite <- Hpost; reflexivity).
    injection Hresp as ->. reflexivity.
  - destruct (C6_contract_checks lib (model_state 2 [[1%R]])
                (post_to "/embed") clock [pystr_of_string "a"] 512 [[1%R]]
                (or_introl eq_refl) eq_refl eq_refl)
      as [response [Hpost [H500 _]]].
    exists response. split; [exact Hpost|].
    apply H500. right. exists [1%R], []. split; [reflexivity|].
    vm_compute. discriminate.
Defined.

(** The checks do not look at the path: they refuse with one message
    whatever the path, or render the envelope of the path. *)
Lemma respond_shape (state : ServiceState) (req : Request)
    (texts : list pystr) (vectors : list (list R)) :
  (exists msg, forall p clock,
      respond state (with_path req p) clock texts vectors
      = _write_error HTTPStatus.INTERNAL_SERVER_ERROR msg)
  \/ (forall p clock,
        respond state (with_path req p) clock texts vectors
        = _write_json HTTPStatus.OK
            (if String.eqb p "/v1/embeddings"
             then openai_payload state vectors
             else native_payload state vectors clock)).
Proof.
  unfold respond.
  destruct (negb (len vectors =? len texts)).
  - left. eexists. intros p clock. reflexivity.
  - destruct ((len vectors >? 0)
              && negb (len (hd [] vectors) =? dimensions (state_backend state))).
    + left. eexists. intros p clock. reflexivity.
    + right. intros p clock. reflexivity.
Qed.

(** C7.  The same request sent to [/embed] and to [/v1/embeddings] has the
    same outcome up to the envelope: both raise the same exception, or both
    answer with the same status and carry the same vectors in the same
    order; an answer that is not 200 is the same on both; a 200 answer is
    the envelope of each endpoint around one list of vectors. *)
Theorem C7_protocol_equivalence (lib : PyLib) (state : ServiceState)
    (req : Request) (clock clock' : Clock) :
  match do_POST lib state (with_path req "/embed") clock,
        do_POST lib state (with_path req "/v1/embeddings") clock' with
  | Return native, Return openai =>
      status native = status openai
      /\ native_vectors native = openai_vectors openai
      /\ (status native <> HTTPStatus.OK -> native = openai)
      /\ (status native = HTTPStatus.OK ->
          exists vectors,
            native = _write_json HTTPStatus.OK (native_payload state vectors clock)
            /\ openai = _write_json HTTPStatus.OK (openai_payload state vectors)
            /\ native_vectors native = Some (map json_of_vector vectors))
  | Raise e, Raise e' => e = e'
  | OutOfFuel, OutOfFuel => True
  | _, _ => False
  end.
Proof.
  rewrite (do_POST_endpoint lib state (with_path req "/embed") clock
             (or_introl eq_refl)).
  rewrite (do_POST_endpoint lib state (with_path req "/v1/embeddings") clock'
             (or_intror eq_refl)).
  rewrite !validate_with_path.
  assert (Herr : forall code msg,
             code <> HTTPStatus.OK ->
             status (_write_error code msg) = status (_write_error code msg)
             /\ native_vectors (_write_error code msg)
                = openai_vectors (_write_error code msg)
             /\ (status (_write_error code msg) <> HTTPStatus.OK ->
                 _write_error code msg = _write_error code msg)
             /\ (status (_write_error code msg) = HTTPStatus.OK ->
                 exists vectors,
                   _write_error code msg
                   = _write_json HTTPStatus.OK (native_payload state vectors clock)
                   /\ _write_error code msg
                      = _write_json HTTPStatus.OK (openai_payload state vectors)
                   /\ native_vectors (_write_error code msg)
                      = Some (map json_of_vector vectors))).
  { intros code msg Hcode. split; [reflexivity|]. split; [reflexivity|].
    split; [reflexivity|]. intros H. contradiction. }
  destruct (validate lib state req) as [[texts truncation] | exc |];
    [| | exact I].
  - destruct (embed (state_backend state) texts truncation) as [vectors | exc |];
      [| | exact I].
    + destruct (respond_shape state req texts vectors) as [[msg Hr] | Hr];
        rewrite !Hr.
      * apply Herr. discriminate.
      * cbn [String.eqb Ascii.eqb Bool.eqb].
        change (String.eqb "/embed" "/v1/embeddings") with false.
        change (String.eqb "/v1/embeddings" "/v1/embeddings") with true.
        cbv iota.
        rewrite native_vectors_payload, openai_vectors_payload.
        split; [reflexivity|]. split; [reflexivity|].
        split; [intros H; exfalso; apply H; reflexivity|].
        intros _. exists vectors. repeat split.
    + apply Herr. discriminate.
  - destruct (is_ValueError exc).
    + apply Herr. discriminate.
    + destruct (is_JSONDecodeError exc); [|reflexivity].
      apply Herr. discriminate.
Qed.

(** C8, as stated, fails for a verb other than GET and POST: the handler
    class has no method for it, and the HTTP library answers 501 with its
    own error page. *)
Lemma C8_other_verb_not_implemented :
  handler_method (Samples.lib_parsing_to one_text) deterministic_state "PUT" = None
  /\ handle_one_request (Samples.lib_parsing_to one_text) deterministic_state
       (mkRequest "PUT" "/embed" None []) (mkClock 0%R 0%R)
     = Return (mkResponse 501 (ErrorPage "Unsupported method ('PUT')")).
Proof. split; reflexivity. Qed.

(** C8, amended.  A GET request for a path other than [/health] and a POST
    request for a path other than [/embed] and [/v1/embeddings] are
    answered 404 with the body [{"error": "not found"}]; for any other verb
    the handler class has no method, and the answer is the HTTP library's
    501. *)
Theorem C8_not_found (lib : PyLib) (state : ServiceState) (req : Request)
    (clock : Clock) :
  (command req = "GET"%string -> path req <> "/health"%string ->
   handle_one_request lib state req clock = Return not_found)
  /\ (command req = "POST"%string ->
      path req <> "/embed"%string -> path req <> "/v1/embeddings"%string ->
      handle_one_request lib state req clock = Return not_found)
  /\ (command req <> "GET"%string -> command req <> "POST"%string ->
      handler_method lib state (command req) = None
      /\ exists page,
           handle_one_request lib state req clock
           = Return (mkResponse HTTPStatus.NOT_IMPLEMENTED (ErrorPage page))).
Proof.
  unfold handle_one_request. split; [|split].
  - intros Hc Hp. rewrite Hc.
    change (handler_method lib state "GET") with (Some (do_GET state)).
    cbv beta iota. unfold do_GET.
    destruct (String.eqb_spec (path req) "/health"); [contradiction|].
    reflexivity.
  - intros Hc Hp1 Hp2. rewrite Hc.
    change (handler_method lib state "POST") with (Some (do_POST lib state)).
    cbv beta iota. unfold do_POST.
    destruct (String.eqb_spec (path req) "/embed"); [contradiction|].
    destruct (String.eqb_spec (path req) "/v1/embeddings"); [contradiction|].
    reflexivity.
  - intros Hg Hp. unfold handler_method.
    destruct (String.eqb_spec (command req) "GET"); [contradiction|].
    destruct (String.eqb_spec (command req) "POST"); [contradiction|].
    split; [reflexivity | eexists; reflexivity].
Qed.

Lemma C8_not_found_witness :
  let lib := Samples.lib_parsing_to one_text in
  let clock := mkClock 0%R 0%R in
  handle_one_request lib deterministic_state
    (mkRequest "GET" "/embed" None []) clock = Return not_found
  /\ handle_one_request lib deterministic_state
       (mkRequest "POST" "/health" None []) clock = Return not_found
  /\ (handler_method lib deterministic_state "DELETE" = None
      /\ exists page,
           handle_one_request lib deterministic_state
             (mkRequest "DELETE" "/health" None []) clock
           = Return (mkResponse HTTPStatus.NOT_IMPLEMENTED (ErrorPage page))).
Proof.
  pose (lib := Samples.lib_parsing_to one_text).
  pose (clock := mkClock 0%R 0%R).
  split; [|split].
  - apply (proj1 (C8_not_found lib deterministic_state
                    (mkRequest "GET" "/embed" None []) clock));
      [reflexivity | discriminate].
  - apply (proj1 (proj2 (C8_not_found lib deterministic_state
                           (mkRequest "POST" "/health" None []) clock)));
      [reflexivity | discriminate | discriminate].
  - apply (proj2 (proj2 (C8_not_found lib deterministic_state
                           (mkRequest "DELETE" "/health" None []) clock)));
      discriminate.
Defined.

(** The health endpoint answers 200 with the merged object. *)
Example health_answer :
  exists payload,
    handle_one_request (Samples.lib_parsing_to one_text) deterministic_state
      (mkRequest "GET" "/health" None []) (mkClock 0%R 0%R)
    = Return (mkResponse 200 (JsonBody payload)).
Proof. eexists. reflexivity. Qed.

(* ================================================================== *)
(** * More on trimming and line splitting *)
(* ================================================================== *)

Example splitlines_samples :
  splitlines (pystr_of_string "a") = [pystr_of_string "a"]
  /\ splitlines [97; 10] = [[97]]
  /\ splitlines [10] = [[]]
  /\ splitlines [97; 10; 10; 98] = [[97]; []; [98]]
  /\ splitlines [97; 13; 10; 98; 13; 99; 8232] = [[97]; [98]; [99]]
  /\ splitlines [] = [].
Proof. repeat split. Qed.

Lemma lstrip_split (s : pystr) :
  exists spaces, s = spaces ++ lstrip s /\ forallb isspace spaces = true.
Proof.
  induction s as [|c s [spaces [Hs Hsp]]].
  - exists []. split; reflexivity.
  - cbn [lstrip]. destruct (isspace c) eqn:Hc.
    + exists (c :: spaces). split; [cbn [app]; rewrite <- Hs; reflexivity|].
      cbn [forallb]. rewrite Hc, Hsp. reflexivity.
    + exists []. split; reflexivity.
Qed.

Lemma lstrip_head (s : pystr) (c : Z) (rest : pystr) :
  lstrip s = c :: rest -> isspace c = false.
Proof.
  induction s as [|d s IH]; cbn [lstrip]; [discriminate|].
  destruct (isspace d) eqn:Hd; [exact IH|].
  intros H; injection H as <- _. exact Hd.
Qed.

Lemma lstrip_fixed (s : pystr) :
  (forall c rest, s = c :: rest -> isspace c = false) -> lstrip s = s.
Proof.
  destruct s as [|c s]; [reflexivity|]. intros H. cbn [lstrip].
  rewrite (H c s eq_refl). reflexivity.
Qed.

Lemma lstrip_idempotent (s : pystr) : lstrip (lstrip s) = lstrip s.
Proof.
  apply lstrip_fixed. intros c rest H. apply (lstrip_head s c rest H).
Qed.

Lemma strip_trimmed (s : pystr) : trimmed (strip s).
Proof.
  unfold trimmed, strip, rstrip. split.
  - apply lstrip_fixed. intros c rest Hc.
    destruct (lstrip_split (rev (lstrip s))) as [spaces [Hsplit _]].
    apply (f_equal (@rev Z)) in Hsplit.
    rewrite rev_involutive, rev_app_distr, Hc in Hsplit.
    cbn [app] in Hsplit. apply (lstrip_head s c _ Hsplit).
  - rewrite rev_involutive. apply lstrip_idempotent.
Qed.

Lemma strip_of_trimmed (s : pystr) : trimmed s -> strip s = s.
Proof.
  intros [H1 H2]. unfold strip, rstrip. rewrite H1, H2. apply rev_involutive.
Qed.

Lemma strip_idempotent (s : pystr) : strip (strip s) = strip s.
Proof. apply strip_of_trimmed, strip_trimmed. Qed.

Lemma lstrip_keeps (s : pystr) (c : Z) :
  In c s -> isspace c = false -> In c (lstrip s).
Proof.
  intros Hin Hc. destruct (lstrip_split s) as [spaces [Hs Hsp]].
  rewrite Hs in Hin. apply in_app_or in Hin. destruct Hin as [Hin|Hin]; [|exact Hin].
  rewrite forallb_forall in Hsp. rewrite (Hsp c Hin) in Hc. discriminate Hc.
Qed.

(** A string that holds a character that is not whitespace does not trim
    to the empty string. *)
Lemma strip_keeps (s : pystr) (c : Z) :
  In c s -> isspace c = false -> In c (strip s).
Proof.
  intros Hin Hc. unfold strip, rstrip. rewrite <- in_rev.
  apply lstrip_keeps; [|exact Hc]. rewrite <- in_rev.
  apply lstrip_keeps; assumption.
Qed.

Lemma surviving_trimmed (items : list pystr) :
  Forall (fun text => text <> [] /\ trimmed text) (surviving items).
Proof.
  unfold surviving. apply Forall_forall. intros text Hin.
  apply filter_In in Hin. destruct Hin as [Hin Hne].
  apply in_map_iff in Hin. destruct Hin as [s [<- _]].
  split; [|apply strip_trimmed].
  intros E. rewrite E in Hne. discriminate Hne.
Qed.

Lemma surviving_fixed (texts : list pystr) :
  Forall (fun text => text <> [] /\ trimmed text) texts ->
  surviving texts = texts.
Proof.
  unfold surviving. induction 1 as [|text texts [Hne Htr] _ IH]; [reflexivity|].
  cbn [map filter]. rewrite (strip_of_trimmed text Htr), IH.
  destruct text; [contradiction | reflexivity].
Qed.

Lemma is_linebreak_isspace (c : Z) : is_linebreak c = true -> isspace c = true.
Proof.
  unfold is_linebreak, isspace. intros H.
  repeat match type of H with
         | (_ || _)%bool = true => apply orb_true_iff in H; destruct H as [H|H]
         | (_ && _)%bool = true => apply andb_true_iff in H; destruct H as [? ?]
         end;
    repeat match goal with
           | H : (_ <=? _) = true |- _ => apply Z.leb_le in H
           | H : (_ =? _) = true |- _ => apply Z.eqb_eq in H
           end;
    repeat (apply orb_true_iff;
            first [ right; apply Z.eqb_eq; lia
                  | right; apply andb_true_iff; split; apply Z.leb_le; lia
                  | left ]);
    try (apply andb_true_iff; split; apply Z.leb_le; lia).
Qed.

(* ================================================================== *)
(** * More on the validator *)
(* ================================================================== *)

(** When the loop over the items returns, every item was a string and the
    result is what was collected followed by the survivors. *)
Lemma clean_loop_returns (items : list pyval) :
  forall index cleaned result,
    clean_loop items index cleaned = Return result ->
    exists strings, items = map PStr strings
                    /\ result = cleaned ++ surviving strings.
Proof.
  induction items as [|item items IH]; intros index cleaned result H.
  - cbn [clean_loop] in H. injection H as <-. exists [].
    split; [reflexivity | unfold surviving; cbn [map filter]; rewrite app_nil_r;
                          reflexivity].
  - cbn [clean_loop] in H. destruct item as [| | | |s| |]; try discriminate H.
    destruct (negb (pystr_eqb (strip s) [])) eqn:Hne.
    + destruct (IH _ _ _ H) as [strings [-> ->]]. exists (s :: strings).
      split; [reflexivity|]. unfold surviving. cbn [map filter].
      rewrite Hne, <- app_assoc. reflexivity.
    + destruct (IH _ _ _ H) as [strings [-> ->]]. exists (s :: strings).
      split; [reflexivity|]. unfold surviving. cbn [map filter].
      rewrite Hne. reflexivity.
Qed.

(** The loop fails at the first item that is not a string, with its index. *)
Lemma clean_loop_bad_item (before : list pystr) (bad : pyval) (rest : list pyval) :
  is_str bad = false ->
  forall index cleaned,
    clean_loop (map PStr before ++ bad :: rest) index cleaned
    = Raise (mkExn ValueError
               ("text at index " ++ str_of_int (index + len before)
                ++ " must be a string")).
Proof.
  intros Hbad. induction before as [|s before IH]; intros index cleaned.
  - cbn [map app clean_loop]. unfold len. cbn [List.length].
    rewrite Z.add_0_r. destruct bad; try discriminate Hbad; reflexivity.
  - cbn [map app clean_loop].
    replace (index + len (s :: before)) with (index + 1 + len before)
      by (unfold len; cbn [List.length]; lia).
    destruct (negb (pystr_eqb (strip s) [])); apply IH.
Qed.

(** The only exception of the loop is the one for an item that is not a
    string. *)
Lemma clean_loop_raises (items : list pyval) :
  forall index cleaned e,
    clean_loop items index cleaned = Raise e ->
    exists i, exn_msg e
              = ("text at index " ++ str_of_int i ++ " must be a string")%string.
Proof.
  induction items as [|item items IH]; intros index cleaned e;
    cbn [clean_loop]; [discriminate|].
  destruct item as [| | | |s| |];
    try (unfold raise; intros H; injection H as <-; exists index; reflexivity).
  destruct (negb (pystr_eqb (strip s) [])); apply IH.
Qed.

Lemma parse_input_texts_returns (data : pydict) (max_items : Z)
    (texts : list pystr) :
  parse_input_texts data max_items = Return texts ->
  exists strings,
    (text_payload data = PList (map PStr strings)
     \/ exists s, text_payload data = PStr s /\ strings = [s])
    /\ texts = surviving strings
    /\ texts <> [] /\ len texts <= max_items.
Proof.
  intros H. pose proof (parse_input_texts_nonempty data max_items texts H) as Hne.
  unfold parse_input_texts in H.
  destruct (text_payload data) as [| | | |s|items|] eqn:Hp;
    cbn [is_None bind] in H; try discriminate H.
  - cbn [clean_loop] in H.
    destruct (negb (pystr_eqb (strip s) [])) eqn:Hs;
      cbn [app bind] in H.
    + destruct (len [strip s] =? 0); [discriminate H|].
      destruct (Z.gtb_spec (len [strip s]) max_items) as [|Hle]; [discriminate H|].
      injection H as <-. exists [s]. split; [right; exists s; split; reflexivity|].
      unfold surviving. cbn [map filter]. rewrite Hs.
      split; [reflexivity|]. split; [exact Hne | exact Hle].
    + discriminate H.
  - destruct (clean_loop items 0 []) as [cleaned| |] eqn:Hloop; cbn [bind] in H;
      try discriminate H.
    destruct (len cleaned =? 0); [discriminate H|].
    destruct (Z.gtb_spec (len cleaned) max_items) as [|Hle]; [discriminate H|].
    injection H as <-.
    destruct (clean_loop_returns items 0 [] cleaned Hloop) as [strings [-> ->]].
    exists strings. split; [left; reflexivity|]. cbn [app].
    split; [reflexivity|]. split; [exact Hne | exact Hle].
Qed.

(** X1.  Whatever the validator returns is a well-formed request: between
    one and [max_items] texts, none empty, none with leading or trailing
    whitespace. *)
Theorem validated_texts_well_formed (data : pydict) (max_items : Z)
    (texts : list pystr) :
  parse_input_texts data max_items = Return texts ->
  1 <= len texts <= max_items
  /\ Forall (fun text => text <> [] /\ strip text = text) texts.
Proof.
  intros H.
  destruct (parse_input_texts_returns data max_items texts H)
    as [strings [_ [-> [Hne Hle]]]].
  split.
  - split; [|exact Hle]. unfold len in *.
    destruct (surviving strings); [contradiction | cbn [List.length]; lia].
  - eapply Forall_impl; [|apply surviving_trimmed].
    intros text [Hn Ht]. split; [exact Hn | apply strip_of_trimmed; exact Ht].
Qed.

Lemma validated_texts_well_formed_witness :
  let data := [(key "input", PList [PStr (pystr_of_string " x "); PStr []])] in
  parse_input_texts data 64 = Return [pystr_of_string "x"]
  /\ 1 <= len [pystr_of_string "x"] <= 64
  /\ Forall (fun text => text <> [] /\ strip text = text) [pystr_of_string "x"].
Proof.
  split; [reflexivity|].
  apply (validated_texts_well_formed
           [(key "input", PList [PStr (pystr_of_string " x "); PStr []])] 64
           [pystr_of_string "x"]).
  reflexivity.
Defined.

(** X2.  Validation is idempotent: the texts it returns, sent again as the
    "texts" list, are returned unchanged. *)
Theorem validation_idempotent (data : pydict) (max_items : Z)
    (texts : list pystr) :
  parse_input_texts data max_items = Return texts ->
  parse_input_texts [(key "texts", PList (map PStr texts))] max_items
  = Return texts.
Proof.
  intros H.
  destruct (parse_input_texts_returns data max_items texts H)
    as [strings [_ [-> [Hne Hle]]]].
  rewrite (parse_input_texts_strings
             [(key "texts", PList (map PStr (surviving strings)))]
             max_items (surviving strings) eq_refl).
  rewrite (surviving_fixed _ (surviving_trimmed strings)).
  destruct (Z.eqb_spec (len (surviving strings)) 0) as [H0|_].
  - exfalso. apply Hne. unfold len in H0.
    destruct (surviving strings); [reflexivity | cbn [List.length] in H0; lia].
  - destruct (Z.gtb_spec (len (surviving strings)) max_items); [lia | reflexivity].
Qed.

Lemma validation_idempotent_witness :
  parse_input_texts [(key "texts", PStr (pystr_of_string "  one  "))] 64
  = Return [pystr_of_string "one"]
  /\ parse_input_texts [(key "texts", PList (map PStr [pystr_of_string "one"]))] 64
     = Return [pystr_of_string "one"].
Proof.
  split; [reflexivity|].
  apply (validation_idempotent
           [(key "texts", PStr (pystr_of_string "  one  "))] 64
           [pystr_of_string "one"]).
  reflexivity.
Defined.

(** X3.  A payload that is one string is handled as the list of that one
    string. *)
Theorem single_string_payload (data : pydict) (max_items : Z) (s : pystr) :
  text_payload data = PStr s ->
  parse_input_texts data max_items
  = parse_input_texts [(key "texts", PList [PStr s])] max_items.
Proof.
  intros H. unfold parse_input_texts at 1. rewrite H. cbn [is_None bind].
  rewrite (parse_input_texts_strings [(key "texts", PList [PStr s])]
             max_items [s] eq_refl).
  unfold surviving. cbn [clean_loop map filter].
  destruct (negb (pystr_eqb (strip s) [])); reflexivity.
Qed.

Lemma single_string_payload_witness :
  text_payload [(key "input", PStr (pystr_of_string "solo"))]
  = PStr (pystr_of_string "solo")
  /\ parse_input_texts [(key "input", PStr (pystr_of_string "solo"))] 64
     = parse_input_texts [(key "texts", PList [PStr (pystr_of_string "solo")])] 64.
Proof.
  split; [reflexivity|].
  apply (single_string_payload [(key "input", PStr (pystr_of_string "solo"))] 64
           (pystr_of_string "solo")).
  reflexivity.
Defined.

(** X4.  A list with an element that is not a string is refused with the
    index of the first such element, whatever follows it and whatever the
    maximum: the type error comes before the count checks. *)
Theorem non_string_element_refused (data : pydict) (max_items : Z)
    (before : list pystr) (bad : pyval) (rest : list pyval) :
  text_payload data = PList (map PStr before ++ bad :: rest) ->
  is_str bad = false ->
  parse_input_texts data max_items
  = Raise (mkExn ValueError
             ("text at index " ++ str_of_int (len before) ++ " must be a string")).
Proof.
  intros H Hbad. unfold parse_input_texts. rewrite H. cbn [is_None bind].
  rewrite (clean_loop_bad_item before bad rest Hbad 0 []). reflexivity.
Qed.

Lemma non_string_element_refused_witness :
  let data := [(key "texts",
                PList [PStr (pystr_of_string "a"); PStr []; PInt 7; PNone])] in
  parse_input_texts data 0
  = Raise (mkExn ValueError "text at index 2 must be a string").
Proof.
  apply (non_string_element_refused
           [(key "texts", PList [PStr (pystr_of_string "a"); PStr []; PInt 7; PNone])]
           0 [pystr_of_string "a"; []] (PInt 7) [PNone]);
    reflexivity.
Defined.

(** Two exceptions with different messages are different outcomes. *)
Ltac other_message :=
  let H := fresh "H" in
  intros H; exfalso; unfold raise in H;
  first [ discriminate H
        | injection H as H; cbn in H; discriminate H ].

(** X5.  The missing-field error is raised exactly when neither key holds
    a value: "texts" is absent or null, and "input" is absent or null.  A
    value of another type than string or list is the type error. *)
Theorem missing_field_iff (data : pydict) (max_items : Z) :
  (parse_input_texts data max_items
   = Raise (mkExn ValueError "missing 'texts' or 'input' field")
   <-> dict_get data (key "texts") PNone = PNone
       /\ dict_get data (key "input") PNone = PNone)
  /\ (text_payload data <> PNone ->
      is_str (text_payload data) = false ->
      (forall items, text_payload data <> PList items) ->
      parse_input_texts data max_items
      = Raise (mkExn ValueError
                 "'texts'/'input' must be a string or array of strings")).
Proof.
  assert (Hpayload : text_payload data = PNone
                     <-> dict_get data (key "texts") PNone = PNone
                         /\ dict_get data (key "input") PNone = PNone).
  { unfold text_payload, dict_contains, dict_get.
    destruct (dict_lookup data (key "texts")) as [t|];
      destruct (dict_lookup data (key "input")) as [i|];
      try destruct t; cbn [is_None andb]; split;
      try (intros [? ?]); try intros ?; try split; try discriminate;
      try reflexivity; try assumption. }
  split.
  - rewrite <- Hpayload. unfold parse_input_texts.
    destruct (text_payload data) as [| | | |s|items|] eqn:Hp; cbn [is_None bind];
      try (split; [reflexivity | reflexivity]);
      try (split; [other_message | discriminate]).
    + cbn [clean_loop]. split; [|discriminate].
      destruct (negb (pystr_eqb (strip s) [])); cbn [bind app].
      * destruct (len [strip s] =? 0); [other_message|].
        destruct (len [strip s] >? max_items); other_message.
      * change (len (@nil pystr) =? 0) with true. cbv iota. other_message.
    + split; [|discriminate].
      destruct (clean_loop items 0 []) as [cleaned| e |] eqn:Hloop; cbn [bind].
      * destruct (len cleaned =? 0); [other_message|].
        destruct (len cleaned >? max_items); other_message.
      * intros H. exfalso. injection H as He.
        destruct (clean_loop_raises items 0 [] e Hloop) as [i Hi].
        rewrite He in Hi. cbn in Hi. discriminate Hi.
      * discriminate.
  - intros Hne Hstr Hlist. unfold parse_input_texts.
    destruct (text_payload data) as [| | | |s|items|]; cbn [is_None bind];
      try reflexivity.
    + contradiction.
    + discriminate Hstr.
    + exfalso. apply (Hlist items). reflexivity.
Qed.

Lemma missing_field_iff_witness :
  parse_input_texts [(key "texts", PNone); (key "input", PNone)] 64
  = Raise (mkExn ValueError "missing 'texts' or 'input' field")
  /\ parse_input_texts [(key "texts", PInt 3)] 64
     = Raise (mkExn ValueError
                "'texts'/'input' must be a string or array of strings").
Proof.
  split.
  - apply (proj1 (missing_field_iff
                    [(key "texts", PNone); (key "input", PNone)] 64)).
    split; reflexivity.
  - apply (proj2 (missing_field_iff [(key "texts", PInt 3)] 64)).
    + discriminate.
    + reflexivity.
    + discriminate.
Defined.

(** X6.  A truncation length that is returned lies in [8, 4096] or is the
    configured default; so with a default inside [8, 4096] the backend is
    never given a length outside that range. *)
Theorem max_length_in_range (lib : PyLib) (data : pydict) (d result : Z) :
  parse_max_length lib data d = Return result ->
  (8 <= result <= 4096 \/ result = d)
  /\ (8 <= d <= 4096 -> 8 <= result <= 4096).
Proof.
  unfold parse_max_length. cbv zeta.
  destruct (int_ lib (dict_get data (key "max_length") (PInt d))) as [v| e |].
  - destruct (Z.ltb_spec v 8) as [Hlt|Hge];
      [intros E; injection E as <-; split; lia|].
    destruct (Z.gtb_spec v 4096) as [Hgt|Hle];
      intros E; injection E as <-; split; lia.
  - destruct (is_TypeError_or_ValueError e); [|discriminate].
    intros E; injection E as <-. split; [right; reflexivity | tauto].
  - discriminate.
Qed.

Lemma max_length_in_range_witness :
  parse_max_length (Samples.lib_parsing_to PNone)
    [(key "max_length", PFloat (Finite 100.5%R))] 512 = Return 100
  /\ (8 <= 100 <= 4096 \/ 100 = 512)
  /\ (8 <= 512 <= 4096 -> 8 <= 100 <= 4096).
Proof.
  assert (H : parse_max_length (Samples.lib_parsing_to PNone)
                [(key "max_length", PFloat (Finite 100.5%R))] 512 = Return 100).
  { unfold parse_max_length. cbv zeta.
    change (dict_get [(key "max_length", PFloat (Finite 100.5%R))]
              (key "max_length") (PInt 512))
      with (PFloat (Finite 100.5%R)).
    cbn [int_]. replace (trunc 100.5%R) with 100; [reflexivity|].
    unfold trunc. destruct (Rle_dec 0 100.5%R) as [_|Hn]; [|exfalso; lra].
    apply Int_part_spec. change (IZR 100) with 100%R. lra. }
  split; [exact H|].
  exact (max_length_in_range (Samples.lib_parsing_to PNone)
           [(key "max_length", PFloat (Finite 100.5%R))] 512 100 H).
Defined.

(** X7.  The only values of the field on which [parse_max_length] raises
    are the two float infinities, and the exception is [OverflowError]. *)
Theorem max_length_raises_iff (lib : PyLib) (data : pydict) (d : Z) (e : exn) :
  parse_max_length lib data d = Raise e
  <-> (exists negative,
         dict_lookup data (key "max_length") = Some (PFloat (Infinity negative)))
      /\ e = mkExn OverflowError "cannot convert float infinity to integer".
Proof.
  unfold parse_max_length, dict_get. cbv zeta. split.
  - destruct (dict_lookup data (key "max_length")) as [raw|].
    + destruct raw as [|b|n|[r|negative|]|s|items|entries]; cbn [int_];
        unfold raise; cbn [is_TypeError_or_ValueError is_ValueError exn_cls];
        try discriminate.
      * destruct ((if b then 1 else 0) <? 8); [discriminate|].
        destruct ((if b then 1 else 0) >? 4096); discriminate.
      * destruct (n <? 8); [discriminate|]. destruct (n >? 4096); discriminate.
      * destruct (trunc r <? 8); [discriminate|].
        destruct (trunc r >? 4096); discriminate.
      * intros H; injection H as <-. split; [eauto | reflexivity].
      * destruct (int_of_str lib s) as [n|];
          cbn [is_TypeError_or_ValueError is_ValueError exn_cls];
          [|discriminate].
        destruct (n <? 8); [discriminate|]. destruct (n >? 4096); discriminate.
    + cbn [int_]. destruct (d <? 8); [discriminate|].
      destruct (d >? 4096); discriminate.
  - intros [[negative ->] ->]. reflexivity.
Qed.

(* ================================================================== *)
(** * More on the handler *)
(* ================================================================== *)

(** X8.  [_read_json] returns an object only for a declared length between
    1 and the configured maximum, and the object is what the parser makes
    of exactly that many leading octets of the body. *)
Theorem read_json_returns (lib : PyLib) (state : ServiceState) (req : Request)
    (d : pydict) :
  _read_json lib state req = Return d ->
  exists n text,
    int_of_str lib (declared_length req) = Some n
    /\ 1 <= n <= max_body_bytes (settings state)
    /\ decode_utf8 lib (firstn (Z.to_nat n) (rfile req)) = Return text
    /\ json_loads lib text = Return (PDict d).
Proof.
  unfold _read_json. cbv zeta. fold (declared_length req).
  destruct (int_of_str lib (declared_length req)) as [n|]; cbn [bind];
    [|discriminate].
  destruct (Z.leb_spec n 0) as [|Hpos]; [discriminate|].
  destruct (Z.gtb_spec n (max_body_bytes (settings state))) as [|Hmax];
    [discriminate|].
  destruct (decode_utf8 lib (firstn (Z.to_nat n) (rfile req))) as [text| |] eqn:Hd;
    cbn [bind]; try discriminate.
  destruct (json_loads lib text) as [decoded| |] eqn:Hj; cbn [bind];
    try discriminate.
  destruct decoded; try discriminate.
  intros H; injection H as <-.
  exists n, text. repeat split; try assumption; lia.
Qed.

Lemma read_json_returns_witness :
  let lib := Samples.lib_parsing_to one_text in
  _read_json lib deterministic_state (post_to "/embed")
  = Return [(key "texts", PList [PStr (pystr_of_string "a")])]
  /\ exists n text,
       int_of_str lib (declared_length (post_to "/embed")) = Some n
       /\ 1 <= n <= max_body_bytes (settings deterministic_state)
       /\ decode_utf8 lib (firstn (Z.to_nat n) (rfile (post_to "/embed")))
          = Return text
       /\ json_loads lib text
          = Return (PDict [(key "texts", PList [PStr (pystr_of_string "a")])]).
Proof.
  split; [reflexivity|].
  apply (read_json_returns (Samples.lib_parsing_to one_text) deterministic_state
           (post_to "/embed")).
  reflexivity.
Defined.

(** X9.  [_read_json] never looks past the declared length: octets after it
    do not change the outcome. *)
Theorem read_json_ignores_trailing (lib : PyLib) (state : ServiceState)
    (verb p : string) (header : pystr) (octets extra : list Z) (n : Z) :
  int_of_str lib (strip header) = Some n ->
  Z.of_nat (List.length octets) = n ->
  _read_json lib state (mkRequest verb p (Some header) (octets ++ extra))
  = _read_json lib state (mkRequest verb p (Some header) octets).
Proof.
  intros Hn Hlen. unfold _read_json. cbv zeta.
  cbn [content_length_header rfile]. rewrite Hn. cbn [bind].
  destruct (n <=? 0); [reflexivity|].
  destruct (n >? max_body_bytes (settings state)); [reflexivity|].
  replace (Z.to_nat n) with (List.length octets) by lia.
  rewrite firstn_app, Nat.sub_diag, firstn_O, app_nil_r.
  reflexivity.
Qed.

Lemma read_json_ignores_trailing_witness :
  _read_json (Samples.lib_parsing_to one_text) deterministic_state
    (mkRequest "POST" "/embed" (Some (pystr_of_string " 2 ")) ([123; 125] ++ [0; 0]))
  = _read_json (Samples.lib_parsing_to one_text) deterministic_state
      (mkRequest "POST" "/embed" (Some (pystr_of_string " 2 ")) [123; 125]).
Proof.
  apply (read_json_ignores_trailing (Samples.lib_parsing_to one_text)
           deterministic_state "POST" "/embed" (pystr_of_string " 2 ")
           [123; 125] [0; 0] 2);
    reflexivity.
Defined.

(** X10.  Whatever [do_POST] answers is a JSON document with one of the
    statuses 200, 400, 404 and 500. *)
Theorem do_POST_statuses (lib : PyLib) (state : ServiceState) (req : Request)
    (clock : Clock) (response : Response) :
  do_POST lib state req clock = Return response ->
  handler_status (status response)
  /\ exists payload, body response = JsonBody payload.
Proof.
  unfold do_POST, handler_status.
  destruct (negb (String.eqb (path req) "/embed"
                  || String.eqb (path req) "/v1/embeddings")).
  - intros H; injection H as <-. split; [right; right; left; reflexivity|].
    eexists; reflexivity.
  - destruct (validate lib state req) as [[texts truncation] | exc |].
    + destruct (embed (state_backend state) texts truncation) as [vectors| exc |].
      * intros H; injection H as <-.
        destruct (respond_cases state req clock texts vectors)
          as [[_ [msg ->]] | [[_ [_ [msg ->]]] | [_ [_ ->]]]].
        -- split; [right; right; right; reflexivity | eexists; reflexivity].
        -- split; [right; right; right; reflexivity | eexists; reflexivity].
        -- split; [left; reflexivity | eexists; reflexivity].
      * intros H; injection H as <-.
        split; [right; right; right; reflexivity | eexists; reflexivity].
      * discriminate.
    + destruct (is_ValueError exc).
      * intros H; injection H as <-.
        split; [right; left; reflexivity | eexists; reflexivity].
      * destruct (is_JSONDecodeError exc); [|discriminate].
        intros H; injection H as <-.
        split; [right; left; reflexivity | eexists; reflexivity].
    + discriminate.
Qed.

Lemma do_POST_statuses_witness :
  exists response,
    do_POST (Samples.lib_parsing_to (PInt 1)) deterministic_state
      (post_to "/embed") (mkClock 0%R 0%R) = Return response
    /\ handler_status (status response)
    /\ exists payload, body response = JsonBody payload.
Proof.
  eexists. split; [reflexivity|].
  apply (do_POST_statuses (Samples.lib_parsing_to (PInt 1)) deterministic_state
           (post_to "/embed") (mkClock 0%R 0%R)).
  reflexivity.
Defined.

(** In Python every [JSONDecodeError] is a [ValueError]. *)
Lemma JSONDecodeError_is_ValueError (exc : exn) :
  is_JSONDecodeError exc = true -> is_ValueError exc = true.
Proof.
  unfold is_JSONDecodeError, is_ValueError.
  destruct (exn_cls exc); try discriminate; reflexivity.
Qed.

(** X11.  On the two endpoints a validation failure of class [ValueError],
    a malformed JSON body included, is answered 400 with the exception's
    own message: the answer "invalid JSON body" of the second [except]
    clause is never the one given for a decoding error. *)
Theorem do_POST_bad_request (lib : PyLib) (state : ServiceState) (req : Request)
    (clock : Clock) (exc : exn) :
  path req = "/embed"%string \/ path req = "/v1/embeddings"%string ->
  validate lib state req = Raise exc ->
  is_ValueError exc = true \/ is_JSONDecodeError exc = true ->
  do_POST lib state req clock
  = Return (_write_error HTTPStatus.BAD_REQUEST (exn_msg exc)).
Proof.
  intros Hpath Hval Hcls.
  rewrite (do_POST_endpoint lib state req clock Hpath), Hval.
  assert (H : is_ValueError exc = true).
  { destruct Hcls as [H|H]; [exact H | apply JSONDecodeError_is_ValueError, H]. }
  rewrite H. reflexivity.
Qed.

Lemma do_POST_bad_request_witness :
  let lib := mkPyLib Samples.int_of_digits (fun octets => Return octets)
               (fun _ => Raise (mkExn JSONDecodeError "Expecting value")) in
  do_POST lib deterministic_state (post_to "/v1/embeddings") (mkClock 0%R 0%R)
  = Return (_write_error HTTPStatus.BAD_REQUEST "Expecting value").
Proof.
  apply (do_POST_bad_request
           (mkPyLib Samples.int_of_digits (fun octets => Return octets)
              (fun _ => Raise (mkExn JSONDecodeError "Expecting value")))
           deterministic_state (post_to "/v1/embeddings") (mkClock 0%R 0%R)
           (mkExn JSONDecodeError "Expecting value"));
    [right; reflexivity | reflexivity | right; reflexivity].
Defined.

(** X12.  [do_POST] lets an exception escape exactly when validation
    raised one that is not a [ValueError]; a failure of the backend never
    escapes. *)
Theorem do_POST_raises_iff (lib : PyLib) (state : ServiceState) (req : Request)
    (clock : Clock) (e : exn) :
  do_POST lib state req clock = Raise e
  <-> (path req = "/embed"%string \/ path req = "/v1/embeddings"%string)
      /\ validate lib state req = Raise e
      /\ is_ValueError e = false.
Proof.
  split.
  - unfold do_POST.
    destruct (String.eqb_spec (path req) "/embed") as [He|He];
      destruct (String.eqb_spec (path req) "/v1/embeddings") as [Hv|Hv];
      cbn [orb negb]; try discriminate.
    all: destruct (validate lib state req) as [[texts truncation] | exc |];
      try discriminate;
      [ destruct (embed (state_backend state) texts truncation); discriminate
      | destruct (is_ValueError exc) eqn:Hcls; [discriminate|];
        destruct (is_JSONDecodeError exc) eqn:Hj; [discriminate|];
        intros H; injection H as <-; repeat split; auto ].
  - intros [Hpath [Hval Hcls]].
    rewrite (do_POST_endpoint lib state req clock Hpath), Hval, Hcls.
    destruct (is_JSONDecodeError e) eqn:Hj; [|reflexivity].
    rewrite (JSONDecodeError_is_ValueError e Hj) in Hcls. discriminate Hcls.
Qed.

(** A body whose [max_length] is a float infinity makes the handler raise:
    no answer is written. *)
Example do_POST_overflow_escapes :
  do_POST (Samples.lib_parsing_to
             (PDict [(key "texts", PList [PStr (pystr_of_string "a")]);
                     (key "max_length", PFloat (Infinity false))]))
    deterministic_state (post_to "/embed") (mkClock 0%R 0%R)
  = Raise (mkExn OverflowError "cannot convert float infinity to integer").
Proof. reflexivity. Qed.

(* ================================================================== *)
(** * More on the deterministic backend *)
(* ================================================================== *)

Lemma vector_for_text_fails (self : DeterministicBackend.t) (text : pystr) :
  encodable text = false ->
  exists msg, DeterministicBackend._vector_for_text self text
              = Raise (mkExn UnicodeEncodeError msg).
Proof.
  intros H. unfold DeterministicBackend._vector_for_text.
  destruct (collect_values_fails text H) as [msg ->]. exists msg. reflexivity.
Qed.

(** X13.  A batch whose texts UTF-8 can all encode gives one vector per
    text, in the order of the texts, each the vector the text has alone;
    a batch with a text UTF-8 cannot encode raises [UnicodeEncodeError] and
    gives no vector at all. *)
Theorem embed_batch_outcome (self : DeterministicBackend.t)
    (texts : list pystr) (m : Z) :
  (forallb encodable texts = true ->
   DeterministicBackend.embed self texts m
   = Return (map (fun text => DeterministicSpec.vector (DeterministicSpec.utf8 text))
                 texts))
  /\ (forallb encodable texts = false ->
      exists msg, DeterministicBackend.embed self texts m
                  = Raise (mkExn UnicodeEncodeError msg)).
Proof.
  unfold DeterministicBackend.embed. cbv zeta.
  induction texts as [|text texts [IHok IHbad]]; cbn [forallb comprehension map].
  - split; [reflexivity | discriminate].
  - split.
    + intros H. apply andb_true_iff in H. destruct H as [Ht Hts].
      rewrite (vector_for_text_spec self text Ht). cbn [bind].
      rewrite (IHok Hts). reflexivity.
    + intros H. destruct (encodable text) eqn:Ht.
      * rewrite (vector_for_text_spec self text Ht). cbn [bind].
        destruct (IHbad H) as [msg ->]. exists msg. reflexivity.
      * destruct (vector_for_text_fails self text Ht) as [msg ->].
        exists msg. reflexivity.
Qed.

Lemma embed_batch_outcome_witness :
  let self := DeterministicBackend.mk "m" in
  DeterministicBackend.embed self [Samples.hello_world; [97]; Samples.hello_world] 8
  = Return (map (fun text => DeterministicSpec.vector (DeterministicSpec.utf8 text))
                [Samples.hello_world; [97]; Samples.hello_world])
  /\ exists msg,
       DeterministicBackend.embed self [Samples.hello_world; [56320]] 8
       = Raise (mkExn UnicodeEncodeError msg).
Proof.
  split.
  - apply (proj1 (embed_batch_outcome (DeterministicBackend.mk "m")
                    [Samples.hello_world; [97]; Samples.hello_world] 8)).
    reflexivity.
  - apply (proj2 (embed_batch_outcome (DeterministicBackend.mk "m")
                    [Samples.hello_world; [56320]] 8)).
    reflexivity.
Defined.

Local Open Scope R_scope.

Lemma square_le_sumsq (v : list R) (x : R) : In x v -> x * x <= sumsq v.
Proof.
  induction v as [|y v IH]; [contradiction|]. cbn [sumsq fold_right].
  fold (sumsq v). pose proof (sumsq_nonneg v) as Hv.
  pose proof (Rle_0_sqr y) as Hy. unfold Rsqr in Hy.
  intros [->|Hin]; [lra|]. specialize (IH Hin). lra.
Qed.

Lemma component_bounded (v : list R) (x : R) :
  0 < sumsq v -> In x v ->
  -1 <= x / DeterministicBackend.euclidean_norm v <= 1.
Proof.
  intros Hpos Hin. rewrite euclidean_norm_eq.
  pose proof (square_le_sumsq v x Hin) as Hx.
  pose proof (sqrt_lt_R0 _ Hpos) as Hn.
  pose proof (sqrt_sqrt (sumsq v) (Rlt_le _ _ Hpos)) as Hs.
  set (n := sqrt (sumsq v)) in *.
  assert (Hle : - n <= x <= n) by nra.
  split.
  - apply (Rmult_le_reg_r n); [exact Hn|].
    unfold Rdiv. rewrite Rmult_assoc, Rinv_l by lra. lra.
  - apply (Rmult_le_reg_r n); [exact Hn|].
    unfold Rdiv. rewrite Rmult_assoc, Rinv_l by lra. lra.
Qed.

(** X14.  Every component of a vector the backend returns is non-zero and
    lies between -1 and 1. *)
Theorem vector_components_bounded (self : DeterministicBackend.t)
    (text : pystr) (v : list R) :
  DeterministicBackend._vector_for_text self text = Return v ->
  Forall (fun x => x <> 0 /\ -1 <= x <= 1) v.
Proof.
  intros H. destruct (encodable text) eqn:Henc.
  - rewrite (vector_for_text_spec self text Henc) in H. injection H as <-.
    unfold DeterministicSpec.vector. cbv zeta. rewrite spec_norm_eq.
    set (values := DeterministicSpec.collected (DeterministicSpec.utf8 text)).
    pose proof (collected_sumsq_pos (DeterministicSpec.utf8 text)) as Hpos.
    fold values in Hpos.
    apply Forall_forall. intros y Hy. apply in_map_iff in Hy.
    destruct Hy as [x [<- Hx]]. split.
    + assert (Hx0 : x <> 0).
      { apply is_value_nonzero.
        pose proof (collected_values (DeterministicSpec.utf8 text)) as Hall.
        rewrite Forall_forall in Hall. apply Hall. exact Hx. }
      assert (Hn : 0 < DeterministicBackend.euclidean_norm values)
        by (rewrite euclidean_norm_eq; apply sqrt_lt_R0; exact Hpos).
      intros E. apply Hx0.
      apply (Rmult_eq_reg_r (/ DeterministicBackend.euclidean_norm values)).
      * unfold Rdiv in E. rewrite E. lra.
      * apply Rinv_neq_0_compat. lra.
    + apply component_bounded; assumption.
  - destruct (vector_for_text_fails self text Henc) as [msg Hmsg].
    rewrite Hmsg in H. discriminate H.
Qed.

Lemma vector_components_bounded_witness :
  Forall (fun x => x <> 0 /\ -1 <= x <= 1)
         (DeterministicSpec.vector (DeterministicSpec.utf8 Samples.hello_world)).
Proof.
  apply (vector_components_bounded (DeterministicBackend.mk "m")
           Samples.hello_world).
  apply vector_for_text_spec. reflexivity.
Defined.

(** X15.  On the 16-bit integers the map raw / 32767.5 - 1 is strictly
    increasing from -1 (at 0) to 1 (at 65535): the values before
    normalisation fill the closed interval from -1 to 1. *)
Theorem value_of_raw_range (a b : Z) :
  (0 <= a <= 65535)%Z -> (0 <= b <= 65535)%Z ->
  -1 <= DeterministicBackend.value_of_raw a <= 1
  /\ ((a < b)%Z ->
      DeterministicBackend.value_of_raw a < DeterministicBackend.value_of_raw b)
  /\ (DeterministicBackend.value_of_raw a = -1 <-> a = 0%Z)
  /\ (DeterministicBackend.value_of_raw a = 1 <-> a = 65535%Z).
Proof.
  intros [Ha0 Ha1] [Hb0 Hb1]. rewrite !value_of_raw_eq.
  pose proof (IZR_le _ _ Ha0) as Ra0. pose proof (IZR_le _ _ Ha1) as Ra1.
  split; [lra|]. split; [|split].
  - intros Hlt. apply IZR_lt in Hlt. lra.
  - split.
    + intros H. apply eq_IZR. lra.
    + intros ->. lra.
  - split.
    + intros H. apply eq_IZR. lra.
    + intros ->. lra.
Qed.

Lemma value_of_raw_range_witness :
  -1 <= DeterministicBackend.value_of_raw 0 <= 1
  /\ ((0 < 65535)%Z ->
      DeterministicBackend.value_of_raw 0 < DeterministicBackend.value_of_raw 65535)
  /\ (DeterministicBackend.value_of_raw 0 = -1 <-> 0%Z = 0%Z)
  /\ (DeterministicBackend.value_of_raw 0 = 1 <-> 0%Z = 65535%Z).
Proof. apply (value_of_raw_range 0 65535); lia. Defined.

Local Close Scope R_scope.

(** X16.  The service on the deterministic backend: once a request is
    validated, the answer is 200 with one vector of 4096 components per
    text, in order, when UTF-8 can encode every text, and 500 otherwise;
    the checks on the backend's answer never refuse it. *)
Theorem deterministic_service (lib : PyLib) (config : Settings)
    (self : DeterministicBackend.t) (started : R) (req : Request)
    (clock : Clock) (texts : list pystr) (truncation : Z) :
  let state := mkState config (DeterministicBackend.as_backend self) started in
  let vectors :=
    map (fun text => DeterministicSpec.vector (DeterministicSpec.utf8 text)) texts in
  path req = "/embed"%string \/ path req = "/v1/embeddings"%string ->
  validate lib state req = Return (texts, truncation) ->
  (forallb encodable texts = true ->
   do_POST lib state req clock
   = Return (_write_json HTTPStatus.OK
               (if String.eqb (path req) "/v1/embeddings"
                then openai_payload state vectors
                else native_payload state vectors clock))
   /\ len vectors = len texts
   /\ Forall (fun v => len v = 4096) vectors)
  /\ (forallb encodable texts = false ->
      exists msg,
        do_POST lib state req clock
        = Return (_write_error HTTPStatus.INTERNAL_SERVER_ERROR msg)).
Proof.
  intros state vectors Hpath Hval.
  rewrite (do_POST_endpoint lib state req clock Hpath), Hval.
  change (embed (state_backend state) texts truncation)
    with (DeterministicBackend.embed self texts truncation).
  destruct (embed_batch_outcome self texts truncation) as [Hok Hbad].
  assert (Hwidth : Forall (fun v : list R => len v = 4096) vectors).
  { unfold vectors. apply Forall_map, Forall_forall. intros text _.
    unfold len, DeterministicSpec.vector. cbv zeta.
    rewrite length_map, collected_length. reflexivity. }
  assert (Hcount : len vectors = len texts)
    by (unfold vectors, len; rewrite length_map; reflexivity).
  split.
  - intros Henc. rewrite (Hok Henc). fold vectors.
    split; [|split; assumption].
    destruct (respond_cases state req clock texts vectors)
      as [[Hne _] | [[_ [[first [rest [Hv Hd]]] _]] | [_ [_ ->]]]].
    + contradiction.
    + exfalso. apply Hd. rewrite Hv in Hwidth.
      inversion Hwidth as [|? ? Hfirst _]. exact Hfirst.
    + reflexivity.
  - intros Henc. destruct (Hbad Henc) as [msg ->]. eexists. reflexivity.
Qed.

Lemma deterministic_service_witness :
  let lib := Samples.lib_parsing_to one_text in
  let vectors := [DeterministicSpec.vector (DeterministicSpec.utf8 [97])] in
  do_POST lib deterministic_state (post_to "/embed") (mkClock 0%R 0%R)
  = Return (_write_json HTTPStatus.OK
              (native_payload deterministic_state vectors (mkClock 0%R 0%R)))
  /\ len vectors = 1
  /\ Forall (fun v => len v = 4096) vectors.
Proof.
  apply (proj1 (deterministic_service (Samples.lib_parsing_to one_text)
                  (Samples.settings_for "deterministic")
                  (DeterministicBackend.mk "m") 0%R (post_to "/embed")
                  (mkClock 0%R 0%R) [[97]] 512
                  (or_introl eq_refl) eq_refl)).
  reflexivity.
Defined.

(* ================================================================== *)
(** * More on start-up, health and settings *)
(* ================================================================== *)

(** X17.  With the model-backed backend and a model that loads,
    construction returns exactly when the model reports a width of 4096 or
    reports none (zero or negative, replaced by 4096); any other width is
    the dimension-mismatch error. *)
Theorem transformers_construction (hub : ModelHub) (config : Settings)
    (model : LoadedModel) :
  backend config = "transformers"%string ->
  load_model hub (model_name config) (dtype config) = Return model ->
  ((exists b, create_backend hub config = Return b)
   <-> hidden_size model <= 0 \/ hidden_size model = 4096)
  /\ (0 < hidden_size model -> hidden_size model <> 4096 ->
      create_backend hub config
      = Raise (mkExn RuntimeError
                 ("backend dimension mismatch: got "
                  ++ str_of_int (hidden_size model) ++ ", expected "
                  ++ str_of_int PIPELINE_VECTOR_DIMENSIONS
                  ++ " for news-pipeline pgvector schema"))).
Proof.
  intros Hb Hload.
  unfold create_backend, construct_backend, TransformersBackend.init.
  rewrite Hb, Hload. cbn [String.eqb Ascii.eqb Bool.eqb bind].
  change (String.eqb "transformers" "deterministic") with false.
  change (String.eqb "transformers" "transformers") with true.
  cbv iota. cbn [bind dimensions TransformersBackend.as_backend
                 TransformersBackend.self_dimensions].
  unfold PIPELINE_VECTOR_DIMENSIONS.
  destruct (Z.gtb_spec (hidden_size model) 0) as [Hpos|Hnon].
  - destruct (Z.eqb_spec (hidden_size model) 4096) as [Heq|Hne]; cbn [negb].
    + split; [split; [intros _; right; exact Heq | intros _; eexists; reflexivity]|].
      intros _ Hne. contradiction.
    + split; [|intros _ _; reflexivity].
      split; [intros [b Hret]; discriminate Hret | intros [H|H]; [lia | contradiction]].
  - change (4096 =? 4096) with true. cbn [negb].
    split; [split; [intros _; left; lia | intros _; eexists; reflexivity]|].
    intros Hpos. lia.
Qed.

Lemma transformers_construction_witness :
  let config := Samples.settings_for "transformers" in
  ((exists b, create_backend (Samples.hub_of 0 []) config = Return b)
   <-> 0 <= 0 \/ 0 = 4096)
  /\ create_backend (Samples.hub_of 1024 []) config
     = Raise (mkExn RuntimeError
                "backend dimension mismatch: got 1024, expected 4096 for news-pipeline pgvector schema").
Proof.
  split.
  - apply (proj1 (transformers_construction (Samples.hub_of 0 [])
                    (Samples.settings_for "transformers")
                    (mkLoaded 0 "cpu" (fun _ _ => Return []))
                    eq_refl eq_refl)).
  - apply (proj2 (transformers_construction (Samples.hub_of 1024 [])
                    (Samples.settings_for "transformers")
                    (mkLoaded 1024 "cpu" (fun _ _ => Return []))
                    eq_refl eq_refl)).
    + reflexivity.
    + discriminate.
Defined.

(** What start-up returns is one of the two backends, of width 4096. *)
Lemma create_backend_kinds (hub : ModelHub) (config : Settings)
    (b : EmbeddingBackend) :
  create_backend hub config = Return b ->
  b = DeterministicBackend.as_backend (DeterministicBackend.mk (model_name config))
  \/ exists model,
       b = TransformersBackend.as_backend
             (TransformersBackend.mk (model_name config) (dtype config) model
                PIPELINE_VECTOR_DIMENSIONS).
Proof.
  intros H. destruct (create_backend_dimensions hub config b H) as [Hc Hd].
  unfold construct_backend, TransformersBackend.init in Hc.
  destruct (String.eqb (backend config) "deterministic").
  - injection Hc as <-. left. reflexivity.
  - destruct (String.eqb (backend config) "transformers"); [|discriminate Hc].
    destruct (load_model hub (model_name config) (dtype config)) as [model| |];
      cbn [bind] in Hc; try discriminate Hc.
    injection Hc as <-. right. exists model.
    cbn [dimensions TransformersBackend.as_backend
         TransformersBackend.self_dimensions] in Hd.
    rewrite Hd. reflexivity.
Qed.

(** X18.  Once the server is listening, [GET /health] answers 200 with an
    object in which "status" is "ok", "pipeline_dimensions" and
    "dimensions" are both 4096, "model" is the configured model name and
    "uptime_seconds" is the clock reading: the backend's fields override
    none of the handler's. *)
Theorem health_after_startup (lib : PyLib) (hub : ModelHub) (config : Settings)
    (now : R) (listening : Listening) (req : Request) (clock : Clock) :
  run_server hub config now = Return listening ->
  command req = "GET"%string -> path req = "/health"%string ->
  exists payload,
    handle_one_request lib (served listening) req clock
    = Return (mkResponse 200 (JsonBody (PDict payload)))
    /\ dict_lookup payload (key "status") = Some (text_ "ok")
    /\ dict_lookup payload (key "pipeline_dimensions") = Some (PInt 4096)
    /\ dict_lookup payload (key "dimensions") = Some (PInt 4096)
    /\ dict_lookup payload (key "model") = Some (text_ (model_name config))
    /\ dict_lookup payload (key "uptime_seconds")
       = Some (PFloat (Finite (uptime_seconds clock))).
Proof.
  intros Hrun Hc Hp. unfold run_server in Hrun.
  destruct (create_backend hub config) as [b| |] eqn:Hb; cbn [bind] in Hrun;
    try discriminate Hrun.
  injection Hrun as <-. cbn [served].
  unfold handle_one_request. rewrite Hc.
  change (handler_method lib (mkState config b now) "GET")
    with (Some (do_GET (mkState config b now))).
  cbv beta iota. unfold do_GET. rewrite Hp.
  change (String.eqb "/health" "/health") with true. cbn [negb].
  destruct (create_backend_kinds hub config b Hb) as [-> | [model ->]];
    eexists; (split; [reflexivity|]); repeat split.
Qed.

Lemma health_after_startup_witness :
  exists payload,
    handle_one_request (Samples.lib_parsing_to PNone)
      (mkState (Samples.settings_for "deterministic")
         (DeterministicBackend.as_backend
            (DeterministicBackend.mk "Qwen/Qwen3-Embedding-8B")) 0%R)
      (mkRequest "GET" "/health" None []) (mkClock 0%R 7%R)
    = Return (mkResponse 200 (JsonBody (PDict payload)))
    /\ dict_lookup payload (key "status") = Some (text_ "ok")
    /\ dict_lookup payload (key "pipeline_dimensions") = Some (PInt 4096)
    /\ dict_lookup payload (key "dimensions") = Some (PInt 4096)
    /\ dict_lookup payload (key "model")
       = Some (text_ (model_name (Samples.settings_for "deterministic")))
    /\ dict_lookup payload (key "uptime_seconds") = Some (PFloat (Finite 7%R)).
Proof.
  apply (health_after_startup (Samples.lib_parsing_to PNone) (Samples.hub_of 0 [])
           (Samples.settings_for "deterministic") 0%R
           (mkListening "0.0.0.0" 8844
              (mkState (Samples.settings_for "deterministic")
                 (DeterministicBackend.as_backend
                    (DeterministicBackend.mk "Qwen/Qwen3-Embedding-8B")) 0%R))
           (mkRequest "GET" "/health" None []) (mkClock 0%R 7%R));
    reflexivity.
Defined.

(** X19.  The settings [main] builds have a default truncation length of at
    least 8, room for at least one text and a body limit of at least 1024
    octets; with them a payload of one string that is not blank is always
    accepted, and no truncation length below 8 reaches the backend. *)
Theorem main_settings_limits (upper : string -> string) (args : Args) :
  let config := main_settings upper args in
  8 <= max_length config /\ 1 <= max_items config
  /\ 1024 <= max_body_bytes config
  /\ (forall data s, text_payload data = PStr s -> strip s <> [] ->
        parse_input_texts data (max_items config) = Return [strip s])
  /\ (forall lib data result,
        parse_max_length lib data (max_length config) = Return result ->
        8 <= result).
Proof.
  cbv zeta. unfold main_settings. cbn [max_length max_items max_body_bytes].
  split; [lia|]. split; [lia|]. split; [lia|]. split.
  - intros data s Hp Hne. unfold parse_input_texts. rewrite Hp.
    cbn [is_None bind clean_loop].
    destruct (pystr_eqb (strip s) []) eqn:He;
      [apply pystr_eqb_eq in He; contradiction|].
    cbn [negb app bind]. change (len [strip s] =? 0) with false. cbv iota.
    destruct (Z.gtb_spec (len [strip s]) (Z.max 1 (args_max_items args)))
      as [Hgt|_]; [|reflexivity].
    unfold len in Hgt. cbn [List.length] in Hgt. lia.
  - intros lib data result H.
    destruct (max_length_in_range lib data _ result H) as [[Hr|Hr] _]; lia.
Qed.

(** X20.  [_env] gives the fallback exactly when the variable is unset or
    blank, and otherwise the value trimmed, which is then neither empty nor
    padded; [_env_int] gives the fallback or the integer read from the
    trimmed value. *)
Theorem env_defaults (lib : PyLib) (environ : pystr -> option pystr)
    (name fallback : pystr) (default : Z) :
  (strip (getenv environ name) = [] -> _env environ name fallback = fallback)
  /\ (strip (getenv environ name) <> [] ->
      _env environ name fallback = strip (getenv environ name)
      /\ _env environ name fallback <> []
      /\ strip (_env environ name fallback) = _env environ name fallback)
  /\ (environ name = None ->
      _env environ name fallback = fallback
      /\ _env_int lib environ name default = default)
  /\ (_env_int lib environ name default = default
      \/ int_of_str lib (strip (getenv environ name))
         = Some (_env_int lib environ name default)).
Proof.
  unfold _env, _env_int. cbv zeta. split; [|split; [|split]].
  - intros ->. reflexivity.
  - intros Hne. destruct (pystr_eqb (strip (getenv environ name)) []) eqn:He;
      [apply pystr_eqb_eq in He; contradiction|].
    split; [reflexivity|]. split; [exact Hne | apply strip_idempotent].
  - intros Hnone. unfold getenv. rewrite Hnone. split; reflexivity.
  - destruct (pystr_eqb (strip (getenv environ name)) []); [left; reflexivity|].
    destruct (int_of_str lib (strip (getenv environ name)));
      [right; reflexivity | left; reflexivity].
Qed.

Lemma env_defaults_witness :
  let environ := fun name : pystr =>
    if pystr_eqb name (pystr_of_string "EMBED_PORT")
    then Some (pystr_of_string " 9000 ") else None in
  _env environ (pystr_of_string "EMBED_PORT") (pystr_of_string "8844")
  = pystr_of_string "9000"
  /\ _env environ (pystr_of_string "EMBED_HOST") (pystr_of_string "0.0.0.0")
     = pystr_of_string "0.0.0.0".
Proof.
  pose (environ := fun name : pystr =>
          if pystr_eqb name (pystr_of_string "EMBED_PORT")
          then Some (pystr_of_string " 9000 ") else None).
  split.
  - transitivity (strip (getenv environ (pystr_of_string "EMBED_PORT")));
      [|reflexivity].
    apply (proj1 (proj2 (env_defaults (Samples.lib_parsing_to PNone) environ
                           (pystr_of_string "EMBED_PORT")
                           (pystr_of_string "8844") 8844))).
    vm_compute. discriminate.
  - apply (proj1 (proj2 (proj2 (env_defaults (Samples.lib_parsing_to PNone) environ
                                  (pystr_of_string "EMBED_HOST")
                                  (pystr_of_string "0.0.0.0") 8844)))).
    reflexivity.
Defined.

Lemma main_settings_limits_witness :
  let config :=
    main_settings (fun s => s)
      (mkArgs "0.0.0.0" 8844 "deterministic" "m" "k" "float16" 0 (-3) 10 "info") in
  max_length config = 8 /\ max_items config = 1 /\ max_body_bytes config = 1024
  /\ parse_input_texts [(key "texts", PStr (pystr_of_string " a "))]
       (max_items config)
     = Return [strip (pystr_of_string " a ")].
Proof.
  split; [reflexivity|]. split; [reflexivity|]. split; [reflexivity|].
  apply (proj1 (proj2 (proj2 (proj2
           (main_settings_limits (fun s => s)
              (mkArgs "0.0.0.0" 8844 "deterministic" "m" "k" "float16"
                      0 (-3) 10 "info")))))
           [(key "texts", PStr (pystr_of_string " a "))] (pystr_of_string " a "));
    [reflexivity | vm_compute; discriminate].
Defined.

(* ================================================================== *)
(** * The CLI mode *)
(* ================================================================== *)

(** A character that is not whitespace ends up in one of the lines. *)
Lemma splitlines_from_keeps (c : Z) (Hc : isspace c = false) :
  forall n s line,
    (List.length s <= n)%nat ->
    In c s \/ In c line ->
    exists l, In l (splitlines_from s line) /\ In c l.
Proof.
  assert (Hbreak : forall d, is_linebreak d = true -> c <> d).
  { intros d Hd E. subst d. apply is_linebreak_isspace in Hd.
    rewrite Hd in Hc. discriminate Hc. }
  induction n as [|n IH]; intros s line Hlen Hin.
  - destruct s; [|cbn [List.length] in Hlen; lia].
    destruct Hin as [[]|Hin]. cbn [splitlines_from].
    destruct line as [|x line]; [contradiction|].
    exists (x :: line). split; [left; reflexivity | exact Hin].
  - destruct s as [|d rest].
    + apply (IH [] line); [cbn [List.length]; lia | exact Hin].
    + cbn [List.length] in Hlen. cbn [splitlines_from].
      destruct (is_linebreak d) eqn:Hd.
      * destruct Hin as [[E|Hin]|Hin].
        -- exfalso. apply (Hbreak d Hd). symmetry. exact E.
        -- destruct rest as [|c2 rest2]; [contradiction|].
           destruct ((d =? 13) && (c2 =? 10)) eqn:Hcrlf.
           ++ apply andb_true_iff in Hcrlf. destruct Hcrlf as [_ H10].
              apply Z.eqb_eq in H10. subst c2.
              destruct Hin as [E|Hin];
                [exfalso; apply (Hbreak 10 eq_refl); symmetry; exact E|].
              destruct (IH rest2 [] ltac:(cbn [List.length] in Hlen; lia)
                          (or_introl Hin)) as [l [Hl Hcl]].
              exists l. split; [right; exact Hl | exact Hcl].
           ++ destruct (IH (c2 :: rest2) [] ltac:(lia) (or_introl Hin))
                as [l [Hl Hcl]].
              exists l. split; [right; exact Hl | exact Hcl].
        -- exists line. split; [|exact Hin].
           destruct rest as [|c2 rest2]; [left; reflexivity|].
           destruct ((d =? 13) && (c2 =? 10)); left; reflexivity.
      * apply IH; [lia|]. destruct Hin as [[E|Hin]|Hin].
        -- right. apply in_or_app. right. left. exact E.
        -- left. exact Hin.
        -- right. apply in_or_app. left. exact Hin.
Qed.

(** The lines of a text that is not blank are not all blank. *)
Lemma surviving_lines_nonempty (raw : pystr) :
  strip raw <> [] -> surviving (splitlines (strip raw)) <> [].
Proof.
  intros Hne. destruct (strip raw) as [|c rest] eqn:Hs; [contradiction|].
  assert (Hc : isspace c = false).
  { destruct (strip_trimmed raw) as [Hl _]. rewrite Hs in Hl.
    apply (lstrip_head (c :: rest) c rest Hl). }
  destruct (splitlines_from_keeps c Hc (List.length (c :: rest)) (c :: rest) []
              (le_n _) (or_introl (or_introl eq_refl))) as [l [Hl Hcl]].
  intros Hnil.
  assert (Hin : In (strip l) (surviving (splitlines (c :: rest)))).
  { unfold surviving. apply filter_In. split.
    - apply in_map. exact Hl.
    - pose proof (strip_keeps l c Hcl Hc) as Hk.
      destruct (strip l); [contradiction | reflexivity]. }
  rewrite Hnil in Hin. contradiction.
Qed.

(** X21.  [run_cli] prints the empty list and exits 0, without loading any
    model, when standard input is blank and when it is a JSON document
    that is neither a string, a list nor an object; and a failure of
    validation is raised before the backend is constructed. *)
Theorem run_cli_without_backend (lib : PyLib) (hub : ModelHub)
    (config : Settings) (stdin : pystr) :
  (strip stdin = [] -> run_cli lib hub config stdin = Return (PList [], 0))
  /\ (forall parsed,
        strip stdin <> [] ->
        json_loads lib (strip stdin) = Return parsed ->
        cli_document parsed = None ->
        run_cli lib hub config stdin = Return (PList [], 0))
  /\ (forall parsed document e,
        strip stdin <> [] ->
        json_loads lib (strip stdin) = Return parsed ->
        cli_document parsed = Some document ->
        parse_input_texts document (max_items config) = Raise e ->
        run_cli lib hub config stdin = Raise e).
Proof.
  unfold run_cli. cbv zeta. split; [|split].
  - intros ->. reflexivity.
  - intros parsed Hne Hj Hdoc.
    destruct (pystr_eqb (strip stdin) []) eqn:He;
      [apply pystr_eqb_eq in He; contradiction|].
    rewrite Hj. cbn [bind]. rewrite Hdoc. reflexivity.
  - intros parsed document e Hne Hj Hdoc Hp.
    destruct (pystr_eqb (strip stdin) []) eqn:He;
      [apply pystr_eqb_eq in He; contradiction|].
    rewrite Hj. cbn [bind]. rewrite Hdoc, Hp. reflexivity.
Qed.

Lemma run_cli_without_backend_witness :
  let failing := mkHub (fun _ _ => Raise (mkExn RuntimeError "no model")) in
  let config := Samples.settings_for "transformers" in
  run_cli (Samples.lib_parsing_to (PInt 42)) failing config [32; 10]
  = Return (PList [], 0)
  /\ run_cli (Samples.lib_parsing_to (PInt 42)) failing config
       (pystr_of_string "42")
     = Return (PList [], 0)
  /\ run_cli (Samples.lib_parsing_to (PList [])) failing config
       (pystr_of_string "[]")
     = Raise (mkExn ValueError "request contains no non-empty texts").
Proof.
  pose (failing := mkHub (fun _ _ => Raise (mkExn RuntimeError "no model"))).
  pose (config := Samples.settings_for "transformers").
  split; [|split].
  - apply (proj1 (run_cli_without_backend (Samples.lib_parsing_to (PInt 42))
                    failing config [32; 10])).
    reflexivity.
  - apply (proj1 (proj2 (run_cli_without_backend (Samples.lib_parsing_to (PInt 42))
                           failing config (pystr_of_string "42")))
             (PInt 42));
      [vm_compute; discriminate | reflexivity | reflexivity].
  - apply (proj2 (proj2 (run_cli_without_backend (Samples.lib_parsing_to (PList []))
                           failing config (pystr_of_string "[]")))
             (PList []) [(key "texts", PList [])]);
      [vm_compute; discriminate | reflexivity | reflexivity | reflexivity].
Defined.

(** X22.  On input that is not blank and not JSON, [run_cli] embeds the
    lines that are not blank, trimmed and in order, with the default
    truncation length brought into [8, 4096]: there is at least one such
    line, so the empty-input error cannot occur, and the only validation
    failure is that of too many lines. *)
Theorem run_cli_plain_text (lib : PyLib) (hub : ModelHub) (config : Settings)
    (stdin : pystr) (exc : exn) :
  strip stdin <> [] ->
  json_loads lib (strip stdin) = Raise exc ->
  is_JSONDecodeError exc = true ->
  let lines := surviving (splitlines (strip stdin)) in
  let truncation := Z.min 4096 (Z.max 8 (max_length config)) in
  lines <> []
  /\ (len lines > max_items config ->
      run_cli lib hub config stdin
      = Raise (mkExn ValueError
                 ("too many texts: got " ++ str_of_int (len lines)
                  ++ ", max " ++ str_of_int (max_items config))))
  /\ (len lines <= max_items config ->
      run_cli lib hub config stdin
      = bind (create_backend hub config) (fun backend =>
        bind (embed backend lines truncation) (fun vectors =>
        Return (PList (map json_of_vector vectors), 0)))).
Proof.
  intros Hne Hj Hcls lines truncation.
  assert (Hlines : lines <> []) by (apply surviving_lines_nonempty; exact Hne).
  split; [exact Hlines|].
  assert (Hrun : run_cli lib hub config stdin
                 = bind (parse_input_texts [(key "texts", PList (map PStr lines))]
                           (max_items config)) (fun texts =>
                   bind (create_backend hub config) (fun backend =>
                   bind (embed backend texts truncation) (fun vectors =>
                   Return (PList (map json_of_vector vectors), 0))))).
  { unfold run_cli. cbv zeta.
    destruct (pystr_eqb (strip stdin) []) eqn:He;
      [apply pystr_eqb_eq in He; contradiction|].
    rewrite Hj, Hcls. cbn [bind cli_document].
    fold (surviving (splitlines (strip stdin))). fold lines.
    destruct (parse_input_texts [(key "texts", PList (map PStr lines))]
                (max_items config)) as [texts| |]; cbn [bind]; try reflexivity.
    assert (Hml : parse_max_length lib [(key "texts", PList (map PStr lines))]
                    (max_length config) = Return truncation).
    { rewrite (parse_max_length_coerced lib
                 [(key "texts", PList (map PStr lines))] (max_length config)
                 (max_length config) eq_refl).
      unfold truncation. f_equal.
      destruct (Z.ltb_spec (max_length config) 8); [lia|].
      destruct (Z.gtb_spec (max_length config) 4096); lia. }
    rewrite Hml. reflexivity. }
  rewrite Hrun.
  rewrite (parse_input_texts_strings [(key "texts", PList (map PStr lines))]
             (max_items config) lines eq_refl).
  rewrite (surviving_fixed lines (surviving_trimmed _)).
  assert (H0 : (len lines =? 0) = false).
  { apply Z.eqb_neq. unfold len. destruct lines; [contradiction|].
    cbn [List.length]. lia. }
  rewrite H0. split.
  - intros Hgt. destruct (Z.gtb_spec (len lines) (max_items config)); [|lia].
    reflexivity.
  - intros Hle. destruct (Z.gtb_spec (len lines) (max_items config)); [lia|].
    reflexivity.
Qed.

Lemma run_cli_plain_text_witness :
  let lib := mkPyLib Samples.int_of_digits (fun octets => Return octets)
               (fun _ => Raise (mkExn JSONDecodeError "Expecting value")) in
  let stdin := pystr_of_string "  first line" ++ [10; 32; 10]
               ++ pystr_of_string "second  " ++ [10] in
  surviving (splitlines (strip stdin))
  = [pystr_of_string "first line"; pystr_of_string "second"]
  /\ run_cli lib (Samples.hub_of 4096 [[1%R]; [2%R]])
       (Samples.settings_for "transformers") stdin
     = bind (create_backend (Samples.hub_of 4096 [[1%R]; [2%R]])
               (Samples.settings_for "transformers")) (fun backend =>
       bind (embed backend (surviving (splitlines (strip stdin)))
               (Z.min 4096 (Z.max 8 (max_length (Samples.settings_for "transformers")))))
            (fun vectors => Return (PList (map json_of_vector vectors), 0))).
Proof.
  pose (lib := mkPyLib Samples.int_of_digits (fun octets => Return octets)
                 (fun _ => Raise (mkExn JSONDecodeError "Expecting value"))).
  pose (stdin := pystr_of_string "  first line" ++ [10; 32; 10]
                 ++ pystr_of_string "second  " ++ [10]).
  split; [vm_compute; reflexivity|].
  apply (proj2 (proj2 (run_cli_plain_text lib (Samples.hub_of 4096 [[1%R]; [2%R]])
                         (Samples.settings_for "transformers") stdin
                         (mkExn JSONDecodeError "Expecting value")
                         ltac:(vm_compute; discriminate) eq_refl eq_refl))).
  vm_compute. discriminate.
Defined.

(* ================================================================== *)
(** * The two envelopes *)
(* ================================================================== *)

Lemma enumerate_nth {A : Type} (l : list A) :
  forall start i x,
    nth_error l i = Some x ->
    nth_error (enumerate start l) i = Some (start + Z.of_nat i, x).
Proof.
  induction l as [|y l IH]; intros start i x H; [destruct i; discriminate H|].
  destruct i as [|i]; cbn [nth_error enumerate] in *.
  - injection H as ->. rewrite Z.add_0_r. reflexivity.
  - rewrite (IH (start + 1) i x H). f_equal. f_equal. lia.
Qed.

(** X23.  In the envelope of [/v1/embeddings] the element at position [i]
    of "data" carries the index [i] and the [i]-th vector; in the envelope
    of [/embed] "count" is the number of vectors, "embeddings" holds them
    in order and "dimensions" is the backend's declared width. *)
Theorem envelope_contents (state : ServiceState) (vectors : list (list R))
    (clock : Clock) (i : nat) (v : list R) :
  nth_error vectors i = Some v ->
  (exists items,
     openai_payload state vectors
     = PDict [ (key "object", text_ "list"); (key "data", PList items);
               (key "model", text_ (model_name (settings state)));
               (key "usage", PDict [ (key "prompt_tokens", PInt 0);
                                     (key "total_tokens", PInt 0) ]) ]
     /\ List.length items = List.length vectors
     /\ nth_error items i
        = Some (PDict [ (key "object", text_ "embedding");
                        (key "index", PInt (Z.of_nat i));
                        (key "embedding", json_of_vector v) ]))
  /\ (exists items,
        dict_lookup (match native_payload state vectors clock with
                     | PDict d => d
                     | _ => []
                     end) (key "embeddings") = Some (PList items)
        /\ nth_error items i = Some (json_of_vector v))
  /\ dict_lookup (match native_payload state vectors clock with
                  | PDict d => d
                  | _ => []
                  end) (key "count") = Some (PInt (len vectors))
  /\ dict_lookup (match native_payload state vectors clock with
                  | PDict d => d
                  | _ => []
                  end) (key "dimensions")
     = Some (PInt (dimensions (state_backend state))).
Proof.
  intros H. split; [|split; [|split]].
  - eexists. split; [reflexivity|]. split.
    + rewrite length_map.
      assert (Hlen : forall (l : list (list R)) start,
                 List.length (enumerate start l) = List.length l).
      { induction l as [|y l IH]; intros start; cbn [enumerate List.length];
          [reflexivity | rewrite IH; reflexivity]. }
      apply Hlen.
    + rewrite nth_error_map, (enumerate_nth vectors 0 i v H).
      cbn [option_map fst snd]. rewrite Z.add_0_l. reflexivity.
  - eexists. split; [reflexivity|].
    rewrite nth_error_map, H. reflexivity.
  - reflexivity.
  - reflexivity.
Qed.

Lemma envelope_contents_witness :
  exists items,
    openai_payload deterministic_state [[1%R]; [2%R]]
    = PDict [ (key "object", text_ "list"); (key "data", PList items);
              (key "model", text_ (model_name (settings deterministic_state)));
              (key "usage", PDict [ (key "prompt_tokens", PInt 0);
                                    (key "total_tokens", PInt 0) ]) ]
    /\ List.length items = 2%nat
    /\ nth_error items 1
       = Some (PDict [ (key "object", text_ "embedding");
                       (key "index", PInt 1);
                       (key "embedding", json_of_vector [2%R]) ]).
Proof.
  exact (proj1 (envelope_contents deterministic_state [[1%R]; [2%R]]
                  (mkClock 0%R 0%R) 1 [2%R] eq_refl)).
Defined.
